(** * ServiceNow -> Infoblox location importer: model and verification

    A shallow embedding of [infoblox-importer.py] and
    [flush_all_location_values.py].  Both scripts talk to two REST
    services, log, and terminate the process with [sys.exit(1)] on any
    failure.  The embedding keeps these effects explicit: a computation
    threads the trace of events it produced (requests and log records) and
    ends in a return value, a [SystemExit], or an exception nobody catches.

    Strings are Rocq strings: sequences of characters with code points below
    256, compared by code point as Python compares [str] values. *)

From Stdlib Require Import ZArith Ascii List Lia.
From Stdlib Require String.
From stdpp Require Import base decidable option list sorting countable gmap sets strings.

#[local] Set Warnings "-clear-no-such-hyp".

(** ** JSON values, as [response.json()] hands them to the scripts *)

(** Numbers are kept to integer literals.  [JObj] lists the items of the
    parsed dict in insertion order, one entry per key. *)
#[warnings="-register-all"] Inductive json : Type :=
| JNull
| JBool (b : bool)
| JNum (n : Z)
| JStr (s : string)
| JArr (items : list json)
| JObj (members : list (string * json)).

(** Exceptions the scripts can raise outside of any [try] block. *)
Inductive pyexn : Type := AttributeError | TypeError | KeyError.

(** A pure Python expression either raises or yields a value. *)
Inductive raised (A : Type) : Type :=
| Val (a : A)
| Exn (e : pyexn).
Arguments Val {A} a.
Arguments Exn {A} e.

Definition rbind {A B} (r : raised A) (k : A -> raised B) : raised B :=
  match r with
  | Val a => k a
  | Exn e => Exn e
  end.

Fixpoint dict_lookup (k : string) (members : list (string * json)) : option json :=
  match members with
  | [] => None
  | (k', v) :: rest => if String.eqb k' k then Some v else dict_lookup k rest
  end.

(** [bool(j)]: the truth value Python gives to a parsed JSON value. *)
Definition py_truthy (j : json) : bool :=
  match j with
  | JNull => false
  | JBool b => b
  | JNum n => negb (n =? 0)%Z
  | JStr s => negb (String.eqb s "")
  | JArr items => match items with [] => false | _ => true end
  | JObj members => match members with [] => false | _ => true end
  end.

(** [d.get(k, default)]: only dicts have [get]. *)
Definition py_get (d : json) (k : string) (default : json) : raised json :=
  match d with
  | JObj members => Val (from_option id default (dict_lookup k members))
  | _ => Exn AttributeError
  end.

Fixpoint chars (s : string) : list json :=
  match s with
  | EmptyString => []
  | String c s' => JStr (String c EmptyString) :: chars s'
  end.

(** [for item in j]: lists yield their elements, dicts their keys, strings
    their characters; nothing else is iterable. *)
Definition py_iter (j : json) : raised (list json) :=
  match j with
  | JArr items => Val items
  | JObj members => Val (map (fun kv => JStr (fst kv)) members)
  | JStr s => Val (chars s)
  | _ => Exn TypeError
  end.

Definition is_str (k : string) (j : json) : bool :=
  match j with
  | JStr s => String.eqb s k
  | _ => false
  end.

(** [sub in s] for strings, with [sub] non-empty. *)
Definition str_contains (sub s : string) : bool :=
  match String.index 0 sub s with
  | Some _ => true
  | None => false
  end.

(** [k in item] for a string literal [k]: key test on a dict, element test
    on a list, substring test on a string. *)
Definition py_contains (k : string) (item : json) : raised bool :=
  match item with
  | JObj members => Val (bool_decide (is_Some (dict_lookup k members)))
  | JArr items => Val (existsb (is_str k) items)
  | JStr s => Val (str_contains k s)
  | _ => Exn TypeError
  end.

(** [item[k]] for a string literal [k]. *)
Definition py_getitem (item : json) (k : string) : raised json :=
  match item with
  | JObj members =>
      match dict_lookup k members with
      | Some v => Val v
      | None => Exn KeyError
      end
  | _ => Exn TypeError
  end.

(** [data[0]], evaluated only on truthy [data]. *)
Definition py_first (data : json) : raised json :=
  match data with
  | JArr (x :: _) => Val x
  | JStr (String c _) => Val (JStr (String c EmptyString))
  | JObj _ => Exn KeyError
  | _ => Exn TypeError
  end.

(** [len(j)]. *)
Definition py_len (j : json) : raised Z :=
  match j with
  | JArr items => Val (Z.of_nat (length items))
  | JObj members => Val (Z.of_nat (length members))
  | JStr s => Val (Z.of_nat (String.length s))
  | _ => Exn TypeError
  end.

(** Characters [str.isspace] accepts, among code points below 256. *)
Definition py_isspace (c : ascii) : bool :=
  let n := Z.of_N (N_of_ascii c) in
  (((9 <=? n) && (n <=? 13)) || ((28 <=? n) && (n <=? 32))
  || (n =? 133) || (n =? 160))%Z.

Fixpoint lstrip (s : string) : string :=
  match s with
  | EmptyString => EmptyString
  | String c s' => if py_isspace c then lstrip s' else s
  end.

Definition strip (s : string) : string :=
  String.rev (lstrip (String.rev (lstrip s))).

(** [v.strip()]: a [str] method. *)
Definition py_strip (v : json) : raised string :=
  match v with
  | JStr s => Val (strip s)
  | _ => Exn AttributeError
  end.

(** [s.rstrip("/")]. *)
Fixpoint lstrip_char (c0 : ascii) (s : string) : string :=
  match s with
  | EmptyString => EmptyString
  | String c s' => if Ascii.eqb c c0 then lstrip_char c0 s' else s
  end.

Definition rstrip_char (c0 : ascii) (s : string) : string :=
  String.rev (lstrip_char c0 (String.rev s)).

(** [s[:stop]] for an integer [stop]: a negative [stop] counts from the
    end of [s], and a [stop] past either end is clipped. *)
Definition py_slice_to (stop : Z) (s : string) : string :=
  if (stop <? 0)%Z
  then String.substring 0 (Z.to_nat (Z.of_nat (String.length s) + stop)) s
  else String.substring 0 (Z.to_nat stop) s.

(** [s.split(sep)] for a one-character separator. *)
Fixpoint split (sep : ascii) (s : string) : list string :=
  match s with
  | EmptyString => [EmptyString]
  | String c s' =>
      if Ascii.eqb c sep then EmptyString :: split sep s'
      else match split sep s' with
           | [] => [String c EmptyString]
           | piece :: pieces => String c piece :: pieces
           end
  end.

(** [a < b] on tuples of strings. *)
Fixpoint tuple_ltb (a b : list string) : bool :=
  match a, b with
  | [], [] => false
  | [], _ :: _ => true
  | _ :: _, [] => false
  | x :: a', y :: b' => if String.eqb x y then tuple_ltb a' b' else String.ltb x y
  end.

(** ** Hashable values and Python sets *)

(** What a set built from JSON scalars holds.  [True] and [1] (and [False]
    and [0]) are equal and hash alike in Python, so a set keeps one of
    them; both are represented by the integer. *)
Inductive pykey : Type :=
| KNone
| KInt (n : Z)
| KStr (s : string).

Global Instance pykey_eq_dec : EqDecision pykey.
Proof. solve_decision. Defined.

Definition pykey_to_sum (k : pykey) : unit + (Z + string) :=
  match k with
  | KNone => inl tt
  | KInt n => inr (inl n)
  | KStr s => inr (inr s)
  end.

Definition pykey_of_sum (x : unit + (Z + string)) : pykey :=
  match x with
  | inl _ => KNone
  | inr (inl n) => KInt n
  | inr (inr s) => KStr s
  end.

Global Instance pykey_countable : Countable pykey.
Proof.
  apply (inj_countable' pykey_to_sum pykey_of_sum).
  intros []; reflexivity.
Defined.

(** [hash(j)]: lists and dicts are unhashable. *)
Definition py_hashable (j : json) : raised pykey :=
  match j with
  | JNull => Val KNone
  | JBool b => Val (KInt (if b then 1 else 0)%Z)
  | JNum n => Val (KInt n)
  | JStr s => Val (KStr s)
  | _ => Exn TypeError
  end.

(** The two kinds of Python value the synchronizer compares. *)
Inductive pyval : Type :=
| PyList (l : list string)
| PySet (s : gset pykey).

(** [a == b].  A list and a set never compare equal: each side's [__eq__]
    returns [NotImplemented] and Python falls back to identity. *)
Definition py_eq (a b : pyval) : bool :=
  match a, b with
  | PyList l1, PyList l2 => bool_decide (l1 = l2)
  | PySet s1, PySet s2 => bool_decide (s1 = s2)
  | _, _ => false
  end.

(** ** The outside world: configuration, requests, responses, events *)

(** The settings both scripts read from [config.yaml], already validated.
    [SERVICE_NOW_API_LIMIT] is the text the f-string interpolates;
    [SERVICENOW_PROXY] is [None] when the key is absent. *)
Record Config : Type := {
  INFOBLOX_API_ENDPOINT : string;
  INFOBLOX_API_USERNAME : string;
  INFOBLOX_API_PASSWORD : string;
  SERVICENOW_API_USERNAME : string;
  SERVICENOW_API_TOKEN : string;
  SERVICENOW_API_ENDPOINT : string;
  SERVICE_NOW_API_LIMIT : string;
  SERVICENOW_PROXY : option string
}.

Inductive http_method : Type := GET | PUT.

(** A request URL.  [UrlRef endpoint ea_ref] stands for
    [f"{endpoint}/{ea_ref}"], keeping the interpolated value as the remote
    system returned it. *)
Inductive url_t : Type :=
| Url (text : string)
| UrlRef (endpoint : string) (ea_ref : json).

(** The keyword arguments of one [requests.get] / [requests.put] call.
    [proxies = None] is the library default: no proxy is set by the call. *)
Record request : Type := {
  method : http_method;
  url : url_t;
  params : list (string * string);
  auth : string * string;
  headers : list (string * string);
  json_body : option json;
  verify : bool;
  timeout : Z;
  proxies : option (list (string * string))
}.

(** What [response.json()] does: raise with a message, or return a value. *)
Inductive parsed : Type :=
| BadJson (msg : string)
| Json (data : json).

Record response : Type := {
  status_code : Z;
  text : string;
  body : parsed
}.

Inductive http_result : Type :=
| RequestException (msg : string)
| Responded (r : response).

Inductive level : Type := INFO | WARNING | ERROR.

(** Arguments of a log record, kept as values rather than formatted text. *)
Inductive logarg : Type :=
| AStr (s : string)
| AInt (n : Z)
| AJson (j : json)
| AUrl (u : url_t)
| AStrs (l : list string)
| AStrSet (s : gset string)
| AKeySet (s : gset pykey).

Inductive event : Type :=
| EvRequest (r : request)
| EvLog (lvl : level) (fmt : string) (args : list logarg)
| EvPrint (fmt : string) (args : list logarg).

Definition request_of (e : event) : option request :=
  match e with
  | EvRequest r => Some r
  | _ => None
  end.

(** The requests of a trace, in the order they were issued. *)
Definition requests_of (tr : list event) : list request :=
  omap request_of tr.

(** The remote systems answer a request knowing the requests before it. *)
Definition remote : Type := list request -> request -> http_result.

(** ** Computations of the scripts *)

Inductive outcome (A : Type) : Type :=
| Returned (a : A)
| SystemExit (code : Z)
| Uncaught (e : pyexn).
Arguments Returned {A} a.
Arguments SystemExit {A} code.
Arguments Uncaught {A} e.

Definition Py (A : Type) : Type :=
  remote -> list event -> list event * outcome A.

Definition ret {A} (a : A) : Py A := fun _ tr => (tr, Returned a).

Definition bind {A B} (m : Py A) (k : A -> Py B) : Py B :=
  fun env tr =>
    match m env tr with
    | (tr', Returned a) => k a env tr'
    | (tr', SystemExit code) => (tr', SystemExit code)
    | (tr', Uncaught e) => (tr', Uncaught e)
    end.

Notation "'let*' x ':=' m 'in' k" := (bind m (fun x => k))
  (at level 10, x pattern, m at level 100, k at level 200).

(** [sys.exit(code)]. *)
Definition sys_exit {A} (code : Z) : Py A := fun _ tr => (tr, SystemExit code).

(** Evaluate a pure expression; an exception escapes to the top level. *)
Definition eval {A} (r : raised A) : Py A :=
  fun _ tr =>
    match r with
    | Val a => (tr, Returned a)
    | Exn e => (tr, Uncaught e)
    end.

Definition log (lvl : level) (fmt : string) (args : list logarg) : Py unit :=
  fun _ tr => (tr ++ [EvLog lvl fmt args], Returned tt).

Definition rprint (fmt : string) (args : list logarg) : Py unit :=
  fun _ tr => (tr ++ [EvPrint fmt args], Returned tt).

(** One blocking call of the [requests] library. *)
Definition http (req : request) : Py http_result :=
  fun env tr => (tr ++ [EvRequest req], Returned (env (requests_of tr) req)).

(** The exit status the operating system sees. *)
Definition exit_code {A} (o : outcome A) : Z :=
  match o with
  | Returned _ => 0%Z
  | SystemExit code => code
  | Uncaught _ => 1%Z
  end.

(** The value of [config.get("SERVICENOW_PROXY")] when it is truthy. *)
Definition configured_proxy (cfg : Config) : option string :=
  match SERVICENOW_PROXY cfg with
  | Some p => if String.eqb p "" then None else Some p
  | None => None
  end.

(** [{"http": p, "https": p}]. *)
Definition proxy_dict (p : string) : list (string * string) :=
  [("http", p); ("https", p)].

(** [config.get(key)] on the dict [yaml.safe_load] returned, whose values
    are modelled like parsed JSON values. *)
Definition config_get (config : list (string * json)) (key : string) : json :=
  from_option id JNull (dict_lookup key config).

(** The keys of [config] that [not config.get(key)] singles out. *)
Definition missing_keys (required : list string) (config : list (string * json))
  : list string :=
  filter (fun key => py_truthy (config_get config key) = false) required.

(** Whether [int(v)] returns.  [int_accepts s] stands for what [int] does
    on a string; on the other values it accepts booleans and integers and
    raises [TypeError] for [None], lists and dicts. *)
Definition py_int_ok (int_accepts : string -> bool) (v : json) : bool :=
  match v with
  | JBool _ | JNum _ => true
  | JStr s => int_accepts s
  | JNull | JArr _ | JObj _ => false
  end.

Definition EXT_ATTR_NAME : string := "Location".
Definition VERIFY_SSL : bool := false.

(** ** infoblox-importer.py *)

Module Importer.

Definition required_keys : list string :=
  ["INFOBLOX_API_ENDPOINT"; "INFOBLOX_API_USERNAME"; "INFOBLOX_API_PASSWORD";
   "SERVICENOW_API_USERNAME"; "SERVICENOW_API_TOKEN"; "SERVICENOW_API_ENDPOINT";
   "SERVICE_NOW_API_LIMIT"].

Definition validate_config (int_accepts : string -> bool)
    (config : list (string * json)) : Py unit :=
  let missing := missing_keys required_keys config in
  let* _ := (match missing with
             | [] => ret tt
             | _ :: _ =>
                 let* _ := log ERROR "Missing required configuration keys: %s"
                               [AStrs missing] in
                 sys_exit 1
             end) in
  if py_int_ok int_accepts (config_get config "SERVICE_NOW_API_LIMIT") then ret tt
  else
    let* _ := log ERROR "SERVICE_NOW_API_LIMIT must be an integer. Found: %s"
                  [AJson (config_get config "SERVICE_NOW_API_LIMIT")] in
    sys_exit 1.

Definition SNOW_INSTANCE_URL (cfg : Config) : string :=
  if negb (String.prefix "http" (SERVICENOW_API_ENDPOINT cfg))
  then "https://" +:+ SERVICENOW_API_ENDPOINT cfg
  else SERVICENOW_API_ENDPOINT cfg.

Definition SNOW_CMN_LOCATION_ENDPOINT (cfg : Config) : string :=
  "/api/now/table/cmn_location?sysparm_query=cmn_location_typeINcountry,city,campus&sysparm_limit="
  +:+ SERVICE_NOW_API_LIMIT cfg +:+ "&sysparm_fields=name".

Definition ENUM_MAX_LENGTH : nat := 64.

Definition sanitize_value (value : string) : Py string :=
  if (ENUM_MAX_LENGTH <? String.length value)%nat then
    let* _ := log WARNING "Value '%s' exceeds %d characters and will be truncated."
                  [AStr value; AInt (Z.of_nat ENUM_MAX_LENGTH)] in
    ret (String.substring 0 ENUM_MAX_LENGTH value)
  else ret value.

Definition ea_url (cfg : Config) (ea_name : string) : string :=
  INFOBLOX_API_ENDPOINT cfg +:+ "/extensibleattributedef?name=" +:+ ea_name
  +:+ "&_return_fields=list_values".

Definition ea_get_request (cfg : Config) (ea_name : string) : request :=
  {| method := GET;
     url := Url (ea_url cfg ea_name);
     params := [];
     auth := (INFOBLOX_API_USERNAME cfg, INFOBLOX_API_PASSWORD cfg);
     headers := [];
     json_body := None;
     verify := VERIFY_SSL;
     timeout := 30;
     proxies := None |}.

Definition get_infoblox_ea_definition (cfg : Config) (ea_name : string)
  : Py (json * json) :=
  let* _ := log INFO "Fetching Infoblox EA definition for '%s': %s"
                [AStr ea_name; AStr (ea_url cfg ea_name)] in
  let* result := http (ea_get_request cfg ea_name) in
  match result with
  | RequestException msg =>
      let* _ := log ERROR "Exception during Infoblox EA GET request: %s" [AStr msg] in
      sys_exit 1
  | Responded response =>
      if negb (status_code response =? 200)%Z then
        let* _ := log ERROR "Infoblox API GET failed for EA '%s'. Status: %s, Response: %s"
                      [AStr ea_name; AInt (status_code response); AStr (text response)] in
        sys_exit 1
      else
        match body response with
        | BadJson msg =>
            let* _ := log ERROR "Error parsing Infoblox JSON: %s" [AStr msg] in
            sys_exit 1
        | Json data =>
            if negb (py_truthy data) then
              let* _ := log ERROR "EA '%s' not found in Infoblox." [AStr ea_name] in
              sys_exit 1
            else
              let* ea_def := eval (py_first data) in
              let* ea_ref := eval (py_get ea_def "_ref" JNull) in
              let* _ := log INFO "Obtained EA definition with reference: %s" [AJson ea_ref] in
              ret (ea_def, ea_ref)
        end
  end.

(** [sanitized_mapping.setdefault(sanitized, []).append(value)] on a dict
    kept as its items in insertion order. *)
Fixpoint setdefault_append (sanitized value : string)
    (mapping : list (string * list string)) : list (string * list string) :=
  match mapping with
  | [] => [(sanitized, [value])]
  | (k, originals) :: rest =>
      if String.eqb k sanitized then (k, originals ++ [value]) :: rest
      else (k, originals) :: setdefault_append sanitized value rest
  end.

Fixpoint build_mapping (new_values : list string)
    (sanitized_mapping : list (string * list string))
  : Py (list (string * list string)) :=
  match new_values with
  | [] => ret sanitized_mapping
  | value :: rest =>
      let* sanitized := sanitize_value value in
      build_mapping rest (setdefault_append sanitized value sanitized_mapping)
  end.

Fixpoint log_duplicates (items : list (string * list string)) : Py unit :=
  match items with
  | [] => ret tt
  | (sanitized, originals) :: rest =>
      let* _ := (if (1 <? length originals)%nat then
                   log WARNING "Duplicate sanitized value '%s' from original values: %s"
                       [AStr sanitized; AStrs originals]
                 else ret tt) in
      log_duplicates rest
  end.

(** [{"list_values": [{"value": value} for value in sanitized_values]}]. *)
Definition make_payload (sanitized_values : list string) : json :=
  JObj [("list_values", JArr (map (fun value => JObj [("value", JStr value)]) sanitized_values))].

Definition ea_put_request (cfg : Config) (ea_ref : json) (payload : json) : request :=
  {| method := PUT;
     url := UrlRef (INFOBLOX_API_ENDPOINT cfg) ea_ref;
     params := [];
     auth := (INFOBLOX_API_USERNAME cfg, INFOBLOX_API_PASSWORD cfg);
     headers := [];
     json_body := Some payload;
     verify := VERIFY_SSL;
     timeout := 30;
     proxies := None |}.

Definition update_infoblox_ea_values (cfg : Config) (ea_ref : json)
    (new_values : list string) : Py unit :=
  let* sanitized_mapping := build_mapping new_values [] in
  let* _ := log_duplicates sanitized_mapping in
  let sanitized_values := merge_sort String.le (sanitized_mapping.*1) in
  let payload := make_payload sanitized_values in
  let* _ := log INFO "Updating Infoblox EA values with payload: %s" [AJson payload] in
  let* result := http (ea_put_request cfg ea_ref payload) in
  match result with
  | RequestException msg =>
      let* _ := log ERROR "Exception during Infoblox EA update: %s" [AStr msg] in
      sys_exit 1
  | Responded response =>
      if negb ((status_code response =? 200) || (status_code response =? 201))%Z then
        let* _ := log ERROR "Infoblox EA update failed. Status: %s, Response: %s"
                      [AInt (status_code response); AStr (text response)] in
        sys_exit 1
      else
        log INFO "Infoblox EA update successful." []
  end.

Definition snow_request (cfg : Config) (proxies : option (list (string * string)))
  : request :=
  {| method := GET;
     url := Url (SNOW_INSTANCE_URL cfg +:+ SNOW_CMN_LOCATION_ENDPOINT cfg);
     params := [];
     auth := (SERVICENOW_API_USERNAME cfg, SERVICENOW_API_TOKEN cfg);
     headers := [("Content-Type", "application/json"); ("Accept", "application/json")];
     json_body := None;
     verify := VERIFY_SSL;
     timeout := 30;
     proxies := proxies |}.

(** One round of the set comprehension:
    [item["name"].strip()] if ["name" in item and item["name"]]. *)
Definition location_name (item : json) : raised (option string) :=
  rbind (py_contains "name" item) (fun has_name =>
    if has_name then
      rbind (py_getitem item "name") (fun name =>
        if py_truthy name then rbind (py_strip name) (fun s => Val (Some s))
        else Val None)
    else Val None).

Fixpoint location_set (results : list json) (acc : gset string)
  : raised (gset string) :=
  match results with
  | [] => Val acc
  | item :: rest =>
      rbind (location_name item) (fun name =>
        location_set rest (match name with
                           | Some s => acc ∪ {[ s ]}
                           | None => acc
                           end))
  end.

Definition get_snow_locations (cfg : Config) : Py (gset string) :=
  let* proxies :=
    match configured_proxy cfg with
    | Some servicenow_proxy =>
        let* _ := log INFO "Using proxy for ServiceNow connection: %s"
                      [AStr servicenow_proxy] in
        ret (Some (proxy_dict servicenow_proxy))
    | None =>
        let* _ := log INFO "No proxy defined for ServiceNow connection, connecting directly." [] in
        ret None
    end in
  let* _ := log INFO "Fetching locations from ServiceNow: %s"
                [AStr (SNOW_INSTANCE_URL cfg +:+ SNOW_CMN_LOCATION_ENDPOINT cfg)] in
  let* result := http (snow_request cfg proxies) in
  match result with
  | RequestException msg =>
      let* _ := log ERROR "Exception during ServiceNow API request: %s" [AStr msg] in
      sys_exit 1
  | Responded response =>
      if negb (status_code response =? 200)%Z then
        let* _ := log ERROR "ServiceNow API error. Status: %s, Response: %s"
                      [AInt (status_code response); AStr (text response)] in
        sys_exit 1
      else
        match body response with
        | BadJson msg =>
            let* _ := log ERROR "Error parsing ServiceNow JSON: %s" [AStr msg] in
            sys_exit 1
        | Json data =>
            let* results := eval (py_get data "result" (JArr [])) in
            let* items := eval (py_iter results) in
            let* locations := eval (location_set items ∅) in
            let* _ := log INFO "Fetched %d locations from ServiceNow."
                          [AInt (Z.of_nat (size locations))] in
            ret locations
        end
  end.

(** One round of [{entry["value"] for entry in current_list if "value" in entry}]. *)
Definition entry_value (entry : json) : raised (option pykey) :=
  rbind (py_contains "value" entry) (fun has_value =>
    if has_value then
      rbind (py_getitem entry "value") (fun v =>
        rbind (py_hashable v) (fun k => Val (Some k)))
    else Val None).

Fixpoint value_set (entries : list json) (acc : gset pykey) : raised (gset pykey) :=
  match entries with
  | [] => Val acc
  | entry :: rest =>
      rbind (entry_value entry) (fun v =>
        value_set rest (match v with
                        | Some k => acc ∪ {[ k ]}
                        | None => acc
                        end))
  end.

(** [ea_def.get("list_values", [])] followed by the set comprehension. *)
Definition allowed_values (ea_def : json) : raised (gset pykey) :=
  rbind (py_get ea_def "list_values" (JArr [])) (fun current_list =>
    rbind (py_iter current_list) (fun entries => value_set entries ∅)).

(** The sort key [tuple(loc.split("/"))]; [sorted] places [x] before [y]
    unless [key(y) < key(x)]. *)
Definition location_key (loc : string) : list string := split "/" loc.

Definition location_le (x y : string) : Prop :=
  tuple_ltb (location_key y) (location_key x) = false.

Global Instance location_le_dec : RelDecision location_le.
Proof. intros x y. unfold location_le. apply _. Defined.

Definition main (cfg : Config) : Py unit :=
  let* _ := log INFO "Starting ServiceNow -> Infoblox synchronization for EA '%s'"
                [AStr EXT_ATTR_NAME] in
  let* snow_locations := get_snow_locations cfg in
  let* (ea_def, ea_ref) := get_infoblox_ea_definition cfg EXT_ATTR_NAME in
  let* current_values := eval (allowed_values ea_def) in
  let* _ := log INFO "Current Infoblox EA '%s' allowed values: %s"
                [AStr EXT_ATTR_NAME; AKeySet current_values] in
  let new_values := merge_sort location_le (elements snow_locations) in
  let* _ := log INFO "ServiceNow provided %d allowed values: %s"
                [AInt (Z.of_nat (length new_values)); AStrs new_values] in
  let* _ :=
    (if py_eq (PyList new_values) (PySet current_values) then
       log INFO "No changes required. Infoblox EA allowed values are up-to-date." []
     else
       let* _ := log INFO "Updating Infoblox EA allowed values to match ServiceNow data." [] in
       let* _ := update_infoblox_ea_values cfg ea_ref new_values in
       let* (ea_def_after, _) := get_infoblox_ea_definition cfg EXT_ATTR_NAME in
       let* updated_values := eval (allowed_values ea_def_after) in
       log INFO "After update, Infoblox EA '%s' allowed values: %s"
           [AStr EXT_ATTR_NAME; AKeySet updated_values]) in
  log INFO "Synchronization completed successfully." [].

End Importer.

(** ** flush_all_location_values.py *)

Module Flush.

Definition required : list string :=
  ["INFOBLOX_API_ENDPOINT"; "INFOBLOX_API_USERNAME"; "INFOBLOX_API_PASSWORD"].

(** The module-level check of the required Infoblox settings. *)
Definition check_required (config : list (string * json)) : Py unit :=
  match missing_keys required config with
  | [] => ret tt
  | missing =>
      let* _ := rprint "[red]Missing required configuration keys: {missing}[/red]"
                       [AStrs missing] in
      sys_exit 1
  end.

(** [config["INFOBLOX_API_ENDPOINT"].rstrip("/")]. *)
Definition INFOBLOX_ENDPOINT (cfg : Config) : string :=
  rstrip_char "/" (INFOBLOX_API_ENDPOINT cfg).

(** The module-level proxy setup, run once when the script starts. *)
Definition proxy_setup (cfg : Config) : Py (option (list (string * string))) :=
  match configured_proxy cfg with
  | Some servicenow_proxy =>
      let* _ := log INFO "Using proxy for Infoblox connection: %s"
                    [AStr servicenow_proxy] in
      ret (Some (proxy_dict servicenow_proxy))
  | None =>
      let* _ := log INFO "No proxy defined for Infoblox connection, connecting directly." [] in
      ret None
  end.

(** [max_len] is any integer and defaults to 64 at every call that omits
    it. *)
Definition sanitize_value (value : string) (max_len : Z) : Py string :=
  if (max_len <? Z.of_nat (String.length value))%Z then
    let* _ := log WARNING "Value '%s' exceeds %d chars, truncating."
                  [AStr value; AInt max_len] in
    ret (py_slice_to max_len value)
  else ret value.

Definition ea_get_request (cfg : Config) (proxies : option (list (string * string)))
    (ea_name : string) : request :=
  {| method := GET;
     url := Url (INFOBLOX_ENDPOINT cfg +:+ "/extensibleattributedef");
     params := [("name", ea_name); ("_return_fields", "list_values")];
     auth := (INFOBLOX_API_USERNAME cfg, INFOBLOX_API_PASSWORD cfg);
     headers := [];
     json_body := None;
     verify := VERIFY_SSL;
     timeout := 30;
     proxies := proxies |}.

Definition get_infoblox_ea_definition (cfg : Config)
    (proxies : option (list (string * string))) (ea_name : string)
  : Py (json * json) :=
  let* _ := log INFO "GET EA definition '%s' -> %s"
                [AStr ea_name; AStr (INFOBLOX_ENDPOINT cfg +:+ "/extensibleattributedef")] in
  let* result := http (ea_get_request cfg proxies ea_name) in
  match result with
  | RequestException msg =>
      let* _ := log ERROR "Error fetching EA definition: %s" [AStr msg] in
      sys_exit 1
  | Responded resp =>
      if negb (status_code resp =? 200)%Z then
        let* _ := log ERROR "GET EA failed (%s): %s"
                      [AInt (status_code resp); AStr (text resp)] in
        sys_exit 1
      else
        match body resp with
        | BadJson msg =>
            let* _ := log ERROR "Invalid JSON from Infoblox: %s" [AStr msg] in
            sys_exit 1
        | Json data =>
            if negb (py_truthy data) then
              let* _ := log ERROR "EA '%s' not found." [AStr ea_name] in
              sys_exit 1
            else
              let* ea_def := eval (py_first data) in
              let* ea_ref := eval (py_get ea_def "_ref" JNull) in
              let* n := eval (rbind (py_get ea_def "list_values" (JArr [])) py_len) in
              let* _ := log INFO "Found EA _ref=%s with %d values" [AJson ea_ref; AInt n] in
              ret (ea_def, ea_ref)
        end
  end.

(** [{"list_values": [{"value": "CLEARED"}]}]. *)
Definition flush_payload : json :=
  JObj [("list_values", JArr [JObj [("value", JStr "CLEARED")]])].

Definition ea_put_request (cfg : Config) (proxies : option (list (string * string)))
    (ea_ref : json) : request :=
  {| method := PUT;
     url := UrlRef (INFOBLOX_ENDPOINT cfg) ea_ref;
     params := [];
     auth := (INFOBLOX_API_USERNAME cfg, INFOBLOX_API_PASSWORD cfg);
     headers := [];
     json_body := Some flush_payload;
     verify := VERIFY_SSL;
     timeout := 30;
     proxies := proxies |}.

Definition update_infoblox_ea_values (cfg : Config)
    (proxies : option (list (string * string))) (ea_ref : json) : Py unit :=
  let* _ := log INFO "PUT flush EA at %s  payload=%s"
                [AUrl (UrlRef (INFOBLOX_ENDPOINT cfg) ea_ref); AJson flush_payload] in
  let* result := http (ea_put_request cfg proxies ea_ref) in
  match result with
  | RequestException msg =>
      let* _ := log ERROR "Error flushing EA values: %s" [AStr msg] in
      sys_exit 1
  | Responded resp =>
      if negb ((status_code resp =? 200) || (status_code resp =? 201))%Z then
        let* _ := log ERROR "Flush failed (%s): %s"
                      [AInt (status_code resp); AStr (text resp)] in
        sys_exit 1
      else
        log INFO "Flush successful—EA now has zero allowed values." []
  end.

(** The script from its proxy setup to the end of the [__main__] block. *)
Definition main (cfg : Config) : Py unit :=
  let* proxies := proxy_setup cfg in
  let* _ := log INFO "Starting one-time flush of EA '%s'" [AStr EXT_ATTR_NAME] in
  let* (_, ea_ref) := get_infoblox_ea_definition cfg proxies EXT_ATTR_NAME in
  let* _ := update_infoblox_ea_values cfg proxies ea_ref in
  rprint "[green]Done: all list_values for EA '{EXT_ATTR_NAME}' have been cleared.[/green]"
         [AStr EXT_ATTR_NAME].

End Flush.

(** ** Sample runs *)

Definition sample_config (proxy : option string) : Config :=
  {| INFOBLOX_API_ENDPOINT := "https://ipam.example/wapi/v2.12";
     INFOBLOX_API_USERNAME := "ib-user";
     INFOBLOX_API_PASSWORD := "ib-pass";
     SERVICENOW_API_USERNAME := "sn-user";
     SERVICENOW_API_TOKEN := "sn-token";
     SERVICENOW_API_ENDPOINT := "itsm.example";
     SERVICE_NOW_API_LIMIT := "1000";
     SERVICENOW_PROXY := proxy |}.

Definition ok_response (data : json) : http_result :=
  Responded {| status_code := 200; text := ""; body := Json data |}.

Definition location_rows (names : list string) : json :=
  JObj [("result", JArr (map (fun n => JObj [("name", JStr n)]) names))].

Definition ea_definition (ref : string) (values : list string) : json :=
  JObj [("_ref", JStr ref);
        ("list_values", JArr (map (fun v => JObj [("value", JStr v)]) values))].

(** A remote pair that never changes: the ITSM system lists [names], the
    attribute definition holds [values], and every update is acknowledged
    with status 200 without being applied. *)
Definition steady_remote (names values : list string) : remote :=
  fun _ req =>
    match method req, url req with
    | PUT, _ => Responded {| status_code := 200; text := ""; body := BadJson "" |}
    | GET, Url u =>
        if str_contains "cmn_location" u then ok_response (location_rows names)
        else ok_response (JArr [ea_definition "extensibleattributedef/b25l:Location" values])
    | GET, UrlRef _ _ => RequestException "unreachable"
    end.

(** A remote whose every answer is [r]. *)
Definition always (r : response) : remote := fun _ _ => Responded r.

Definition server_error : response :=
  {| status_code := 500; text := "Internal Server Error"; body := BadJson "not JSON" |}.

Definition json_response (data : json) : response :=
  {| status_code := 200; text := ""; body := Json data |}.

(** Two names of 65 characters that share their first 64. *)
Definition long_prefix : string :=
  "Country-with-a-long-name/City-with-a-long-name/Campus-number-000".

Definition long_name_a : string := long_prefix +:+ "A".
Definition long_name_b : string := long_prefix +:+ "B".

Definition is_update (r : request) : bool :=
  match method r with
  | PUT => true
  | GET => false
  end.

(** How many update calls a trace holds. *)
Definition update_calls (tr : list event) : nat :=
  length (filter (fun r => is_update r = true) (requests_of tr)).

(** ** Pure readings of the updater, used to describe its trace *)

(** What [Importer.sanitize_value] returns. *)
Definition sanitized (value : string) : string :=
  if (Importer.ENUM_MAX_LENGTH <? String.length value)%nat
  then String.substring 0 Importer.ENUM_MAX_LENGTH value
  else value.

(** What [Importer.sanitize_value] logs. *)
Definition truncation_events (value : string) : list event :=
  if (Importer.ENUM_MAX_LENGTH <? String.length value)%nat
  then [EvLog WARNING "Value '%s' exceeds %d characters and will be truncated."
              [AStr value; AInt (Z.of_nat Importer.ENUM_MAX_LENGTH)]]
  else [].

(** The dict the first loop of the updater builds. *)
Definition mapping_of (new_values : list string)
    (mapping : list (string * list string)) : list (string * list string) :=
  fold_left (fun m value => Importer.setdefault_append (sanitized value) value m)
            new_values mapping.

(** The value stored under a key, [[]] when the key is absent. *)
Fixpoint originals_of (k : string) (mapping : list (string * list string))
  : list string :=
  match mapping with
  | [] => []
  | (k', originals) :: rest =>
      if String.eqb k' k then originals else originals_of k rest
  end.

Definition duplicate_event (item : string * list string) : list event :=
  if (1 <? length item.2)%nat
  then [EvLog WARNING "Duplicate sanitized value '%s' from original values: %s"
              [AStr item.1; AStrs item.2]]
  else [].

(** The values the updater submits for [new_values]. *)
Definition submitted_values (new_values : list string) : list string :=
  merge_sort String.le ((mapping_of new_values []).*1).

(** A computation that only adds events satisfying [Q] to the trace. *)
Definition emits_only (Q : event -> Prop) {A} (m : Py A) : Prop :=
  forall env tr, Forall Q tr -> Forall Q (fst (m env tr)).

(** [Q] for a condition on requests alone. *)
Definition on_requests (P : request -> Prop) (e : event) : Prop :=
  match e with
  | EvRequest r => P r
  | _ => True
  end.

(** The ways the ITSM read can go wrong: the call raises, the status is not
    200, the body is not JSON, or the JSON does not have the shape the
    fetcher walks through. *)
Definition snow_rows (data : json) : raised (gset string) :=
  rbind (py_get data "result" (JArr [])) (fun results =>
    rbind (py_iter results) (fun items => Importer.location_set items ∅)).

Definition snow_read_failed (res : http_result) : Prop :=
  match res with
  | RequestException _ => True
  | Responded r =>
      status_code r ≠ 200%Z \/
      match body r with
      | BadJson _ => True
      | Json data => exists e, snow_rows data = Exn e
      end
  end.

(** ** Readings used by the sections on the remaining behaviour *)

(** The closing record and the outcome of the importer's updater, read off
    the answer to its PUT. *)
Definition update_closing (res : http_result) : event * outcome unit :=
  match res with
  | RequestException msg =>
      (EvLog ERROR "Exception during Infoblox EA update: %s" [AStr msg],
       SystemExit 1%Z)
  | Responded r =>
      if ((status_code r =? 200) || (status_code r =? 201))%Z
      then (EvLog INFO "Infoblox EA update successful." [], Returned tt)
      else (EvLog ERROR "Infoblox EA update failed. Status: %s, Response: %s"
                  [AInt (status_code r); AStr (text r)],
            SystemExit 1%Z)
  end.

(** Answers on which both readers give up with an error record: the call
    raised, the status is not 200, the body is not JSON, or the parsed body
    is falsy. *)
Definition reader_rejects (res : http_result) : Prop :=
  match res with
  | RequestException _ => True
  | Responded r =>
      status_code r ≠ 200%Z \/
      match body r with
      | BadJson _ => True
      | Json data => py_truthy data = false
      end
  end.

(** A result row of the shape the ITSM system documents: an object whose
    [name], when present, is falsy or a string. *)
Definition row_ok (item : json) : Prop :=
  match item with
  | JObj members =>
      match dict_lookup "name" members with
      | None => True
      | Some v => py_truthy v = false \/ exists raw, v = JStr raw
      end
  | _ => False
  end.

(** An entry of [list_values]: an object whose [value], when present, is
    hashable. *)
Definition entry_ok (entry : json) : Prop :=
  match entry with
  | JObj members =>
      match dict_lookup "value" members with
      | None => True
      | Some v => exists k, py_hashable v = Val k
      end
  | _ => False
  end.

Fixpoint all_space (s : string) : bool :=
  match s with
  | EmptyString => true
  | String c s' => py_isspace c && all_space s'
  end.

Fixpoint repeat_char (c : ascii) (n : nat) : string :=
  match n with
  | O => EmptyString
  | S n' => String c (repeat_char c n')
  end.

(** An outcome that is a normal return or leaves exit status 1. *)
Definition returned_or_failed {A} (o : outcome A) : Prop :=
  match o with
  | Returned _ => True
  | SystemExit code => code = 1%Z
  | Uncaught _ => True
  end.

(** ** Traces and requests *)

Section Traces.

Lemma requests_of_app (tr1 tr2 : list event) :
  requests_of (tr1 ++ tr2) = requests_of tr1 ++ requests_of tr2.
Proof. apply omap_app. Qed.

Lemma requests_of_log (tr : list event) lvl fmt args :
  requests_of (tr ++ [EvLog lvl fmt args]) = requests_of tr.
Proof. rewrite requests_of_app. simpl. apply app_nil_r. Qed.


Lemma requests_of_request (tr : list event) (req : request) :
  requests_of (tr ++ [EvRequest req]) = requests_of tr ++ [req].
Proof. by rewrite requests_of_app. Qed.

End Traces.

(** ** Sanitization *)

Section Sanitize.

Lemma substring_prefix (n : nat) (s : string) :
  n <= String.length s ->
  String.length (String.substring 0 n s) = n /\
  exists rest, s = String.substring 0 n s +:+ rest.
Proof.
  revert s. induction n as [|n IH]; intros s Hn.
  - destruct s; simpl; split; eauto.
  - destruct s as [|c s]; simpl in *; [lia|].
    destruct (IH s) as [Hlen [rest Hrest]]; [lia|].
    split; [by rewrite Hlen|].
    exists rest.
    change (String c s = String c (String.substring 0 n s +:+ rest)).
    by f_equal.
Qed.

Lemma sanitize_value_run (value : string) (env : remote) (tr : list event) :
  Importer.sanitize_value value env tr
  = (tr ++ truncation_events value, Returned (sanitized value)).
Proof.
  unfold Importer.sanitize_value, truncation_events, sanitized.
  destruct (_ <? _)%nat; simpl.
  - reflexivity.
  - unfold ret. by rewrite app_nil_r.
Qed.

Lemma flush_sanitize_value_run (value : string) (env : remote) (tr : list event) :
  snd (Flush.sanitize_value value 64 env tr) = Returned (sanitized value).
Proof.
  unfold Flush.sanitize_value, sanitized, Importer.ENUM_MAX_LENGTH.
  destruct (Z.ltb_spec 64 (Z.of_nat (String.length value)));
    destruct (Nat.ltb_spec 64 (String.length value)); try lia; done.
Qed.

(** C2: both scripts' [sanitize_value] return a value of at most 64
    characters unchanged, and cut a longer one down to its first 64
    characters. *)
Theorem sanitize_value_truncates_to_64 (value : string) (env : remote)
    (tr : list event) :
  exists result,
    snd (Importer.sanitize_value value env tr) = Returned result /\
    snd (Flush.sanitize_value value 64 env tr) = Returned result /\
    if (String.length value <=? 64)%nat then result = value
    else String.length result = 64 /\ exists rest, value = result +:+ rest.
Proof.
  exists (sanitized value).
  rewrite sanitize_value_run, flush_sanitize_value_run.
  split; [done|]. split; [done|].
  unfold sanitized, Importer.ENUM_MAX_LENGTH.
  destruct (Nat.leb_spec (String.length value) 64) as [Hle|Hgt].
  - by destruct (Nat.ltb_spec 64 (String.length value)); [lia|].
  - destruct (Nat.ltb_spec 64 (String.length value)); [|lia].
    apply substring_prefix. lia.
Qed.

End Sanitize.

(** ** The updater of the importer *)

Section Mapping.

Implicit Types (k v : string) (m : list (string * list string)).

Lemma setdefault_append_keys k v m :
  (Importer.setdefault_append k v m).*1
  = if decide (k ∈ m.*1) then m.*1 else m.*1 ++ [k].
Proof.
  induction m as [|[k' os] m IH].
  - case_decide as Hin; [by apply not_elem_of_nil in Hin|done].
  - cbn [Importer.setdefault_append].
    destruct (String.eqb_spec k' k) as [->|Hne].
    + clear IH. case_decide as Hin; [done|]. exfalso. apply Hin. by left.
    + rewrite fmap_cons, IH, fmap_cons. cbn [fst]. clear IH.
      destruct (decide (k ∈ m.*1)) as [Hin|Hnin]; case_decide as Hin'.
      * done.
      * exfalso. apply Hin'. by right.
      * apply elem_of_cons in Hin' as [?|?]; congruence.
      * done.
Qed.

Lemma setdefault_append_originals k k' v m :
  originals_of k' (Importer.setdefault_append k v m)
  = if decide (k' = k) then originals_of k m ++ [v] else originals_of k' m.
Proof.
  induction m as [|[k0 os] m IH]; cbn [Importer.setdefault_append originals_of].
  - destruct (String.eqb_spec k k') as [->|Hne]; case_decide; (done || congruence).
  - destruct (String.eqb_spec k0 k) as [->|Hne]; cbn [originals_of].
    + clear IH. destruct (String.eqb_spec k k') as [->|Hne']; case_decide; (done || congruence).
    + rewrite IH. clear IH.
      destruct (String.eqb_spec k0 k') as [->|Hne']; [|done].
      case_decide; (done || congruence).
Qed.

Lemma setdefault_append_NoDup k v m :
  NoDup m.*1 -> NoDup (Importer.setdefault_append k v m).*1.
Proof.
  intros Hnd. rewrite setdefault_append_keys.
  destruct (decide (k ∈ m.*1)); [done|].
  apply NoDup_app. split_and!; [done| |apply NoDup_singleton].
  intros x Hx ->%list_elem_of_singleton. done.
Qed.

Lemma mapping_of_NoDup (vs : list string) m :
  NoDup m.*1 -> NoDup (mapping_of vs m).*1.
Proof.
  revert m. induction vs as [|v vs IH]; intros m Hnd; [done|].
  apply IH. by apply setdefault_append_NoDup.
Qed.

Lemma mapping_of_keys (vs : list string) m k :
  k ∈ (mapping_of vs m).*1 <-> k ∈ m.*1 \/ exists v, v ∈ vs /\ sanitized v = k.
Proof.
  revert m. induction vs as [|v vs IH]; intros m.
  - cbn. set_solver.
  - change (mapping_of (v :: vs) m)
      with (mapping_of vs (Importer.setdefault_append (sanitized v) v m)).
    rewrite IH, setdefault_append_keys. clear IH.
    case_decide; set_solver.
Qed.

Lemma mapping_of_originals (vs : list string) m k :
  originals_of k (mapping_of vs m)
  = originals_of k m ++ filter (fun v => sanitized v = k) vs.
Proof.
  revert m. induction vs as [|v vs IH]; intros m.
  - cbn. by rewrite app_nil_r.
  - change (mapping_of (v :: vs) m)
      with (mapping_of vs (Importer.setdefault_append (sanitized v) v m)).
    rewrite IH, setdefault_append_originals, filter_cons. clear IH.
    destruct (decide (k = sanitized v)) as [->|Hne].
    + rewrite decide_True by done. by rewrite <- app_assoc.
    + by rewrite decide_False by congruence.
Qed.

Lemma originals_of_elem k m :
  k ∈ m.*1 -> (k, originals_of k m) ∈ m.
Proof.
  induction m as [|[k' os] m IH]; simpl.
  - by intros ?%not_elem_of_nil.
  - intros Hin. destruct (String.eqb_spec k' k) as [->|Hne]; [by left|].
    right. apply IH. apply elem_of_cons in Hin as [?|?]; [congruence|done].
Qed.

Lemma two_elements_length (l : list string) (x y : string) :
  x ∈ l -> y ∈ l -> x ≠ y -> 1 < length l.
Proof.
  destruct l as [|a [|b l]]; simpl; intros Hx Hy Hne; [|exfalso|lia].
  - by apply not_elem_of_nil in Hx.
  - apply list_elem_of_singleton in Hx, Hy. congruence.
Qed.

End Mapping.

Section Updater.

Context (cfg : Config) (ea_ref : json).

Lemma build_mapping_run (vs : list string) (m : list (string * list string))
    (env : remote) (tr : list event) :
  Importer.build_mapping vs m env tr
  = (tr ++ concat (map truncation_events vs), Returned (mapping_of vs m)).
Proof.
  revert m tr. induction vs as [|v vs IH]; intros m tr; simpl.
  - unfold ret. by rewrite app_nil_r.
  - unfold bind. rewrite sanitize_value_run, IH. by rewrite <- app_assoc.
Qed.

Lemma log_duplicates_run (items : list (string * list string))
    (env : remote) (tr : list event) :
  Importer.log_duplicates items env tr
  = (tr ++ concat (map duplicate_event items), Returned tt).
Proof.
  revert tr. induction items as [|[k os] items IH]; intros tr; simpl.
  - unfold ret. by rewrite app_nil_r.
  - unfold bind, duplicate_event at 1. simpl.
    destruct (1 <? length os)%nat; simpl.
    + rewrite IH. by rewrite <- app_assoc.
    + apply IH.
Qed.

Lemma requests_of_truncations (vs : list string) :
  requests_of (concat (map truncation_events vs)) = [].
Proof.
  induction vs as [|v vs IH]; simpl; [done|].
  rewrite requests_of_app, IH. unfold truncation_events.
  by destruct (_ <? _)%nat.
Qed.

Lemma requests_of_duplicates (items : list (string * list string)) :
  requests_of (concat (map duplicate_event items)) = [].
Proof.
  induction items as [|it items IH]; simpl; [done|].
  rewrite requests_of_app, IH. unfold duplicate_event.
  by destruct (_ <? _)%nat.
Qed.

Lemma duplicate_event_logged (items : list (string * list string)) k os :
  (k, os) ∈ items -> 1 < length os ->
  EvLog WARNING "Duplicate sanitized value '%s' from original values: %s"
        [AStr k; AStrs os] ∈ concat (map duplicate_event items).
Proof.
  intros Hin Hlen. induction items as [|it items IH]; simpl.
  - by apply not_elem_of_nil in Hin.
  - apply elem_of_app. apply elem_of_cons in Hin as [<-|Hin]; [left|right; auto].
    unfold duplicate_event. simpl.
    destruct (Nat.ltb_spec 1 (length os)); [by left|lia].
Qed.

(** The trace of one call of the updater: the truncation warnings, the
    duplicate warnings, the payload record, the single PUT, and one closing
    record that depends on the answer. *)
Lemma update_run (new_values : list string) (env : remote) (tr : list event) :
  exists closing o,
    Importer.update_infoblox_ea_values cfg ea_ref new_values env tr
    = (tr ++ concat (map truncation_events new_values)
          ++ concat (map duplicate_event (mapping_of new_values []))
          ++ [EvLog INFO "Updating Infoblox EA values with payload: %s"
                    [AJson (Importer.make_payload (submitted_values new_values))];
              EvRequest (Importer.ea_put_request cfg ea_ref
                           (Importer.make_payload (submitted_values new_values)))]
          ++ closing, o)
    /\ requests_of closing = [].
Proof.
  unfold Importer.update_infoblox_ea_values, bind at 1.
  rewrite build_mapping_run. unfold bind at 1. rewrite log_duplicates_run.
  fold (submitted_values new_values).
  unfold bind, log, http, sys_exit. simpl.
  destruct (env _ _) as [msg|r]; simpl.
  - eexists _, _. split; [by rewrite <- !app_assoc|done].
  - destruct (negb _); simpl.
    + eexists _, _. split; [by rewrite <- !app_assoc|done].
    + eexists _, _. split; [by rewrite <- !app_assoc|done].
Qed.

Lemma update_requests (new_values : list string) (env : remote) (tr : list event) :
  requests_of (fst (Importer.update_infoblox_ea_values cfg ea_ref new_values env tr))
  = requests_of tr
    ++ [Importer.ea_put_request cfg ea_ref
          (Importer.make_payload (submitted_values new_values))].
Proof.
  destruct (update_run new_values env tr) as (closing & o & -> & Hclosing).
  simpl. rewrite !requests_of_app, requests_of_truncations, requests_of_duplicates.
  simpl. by rewrite Hclosing.
Qed.

Lemma submitted_values_NoDup (new_values : list string) :
  NoDup (submitted_values new_values).
Proof.
  unfold submitted_values. rewrite merge_sort_Permutation.
  apply mapping_of_NoDup. constructor.
Qed.

Lemma submitted_values_elem (new_values : list string) (s : string) :
  s ∈ submitted_values new_values
  <-> exists v, v ∈ new_values /\ sanitized v = s.
Proof.
  unfold submitted_values. rewrite merge_sort_Permutation, mapping_of_keys.
  set_solver.
Qed.

Lemma NoDup_filter_eq_length (l : list string) (x : string) :
  NoDup l -> x ∈ l -> length (filter (fun y => y = x) l) = 1.
Proof.
  induction 1 as [|y l Hnotin Hnd IH]; intros Hin.
  - by apply not_elem_of_nil in Hin.
  - rewrite filter_cons. apply elem_of_cons in Hin as [->|Hin].
    + rewrite decide_True by done. simpl. f_equal.
      destruct (filter _ l) as [|z zs] eqn:E; [done|].
      assert (z ∈ z :: zs) as Hz by left.
      rewrite <- E in Hz. apply list_elem_of_filter in Hz as [-> ?]. done.
    + rewrite decide_False by (intros ->; done). auto.
Qed.

(** C3: when distinct raw values sanitize to one string, the JSON body of
    the single PUT holds that string once among its [list_values], and a
    warning naming every raw value that sanitizes to it is logged. *)
Theorem colliding_values_submitted_once_and_logged
    (new_values : list string) (v1 v2 s : string)
    (env : remote) (tr : list event) :
  v1 ∈ new_values -> v2 ∈ new_values -> v1 ≠ v2 ->
  snd (Importer.sanitize_value v1 env tr) = Returned s ->
  snd (Importer.sanitize_value v2 env tr) = Returned s ->
  exists req values originals,
    requests_of (fst (Importer.update_infoblox_ea_values cfg ea_ref new_values env tr))
    = requests_of tr ++ [req]
    /\ method req = PUT
    /\ url req = UrlRef (INFOBLOX_API_ENDPOINT cfg) ea_ref
    /\ json_body req
       = Some (JObj [("list_values",
                      JArr (map (fun v => JObj [("value", JStr v)]) values))])
    /\ length (filter (fun x => x = s) values) = 1
    /\ EvLog WARNING "Duplicate sanitized value '%s' from original values: %s"
             [AStr s; AStrs originals]
       ∈ fst (Importer.update_infoblox_ea_values cfg ea_ref new_values env tr)
    /\ forall v, v ∈ originals
         <-> v ∈ new_values
             /\ snd (Importer.sanitize_value v env tr) = Returned s.
Proof.
  intros Hv1 Hv2 Hne Hs1 Hs2.
  rewrite sanitize_value_run in Hs1, Hs2. simpl in Hs1, Hs2.
  injection Hs1 as Hs1. injection Hs2 as Hs2.
  exists (Importer.ea_put_request cfg ea_ref
            (Importer.make_payload (submitted_values new_values))),
         (submitted_values new_values),
         (filter (fun v => sanitized v = s) new_values).
  assert (s ∈ (mapping_of new_values []).*1) as Hkey.
  { apply mapping_of_keys. right. by exists v1. }
  split; [apply update_requests|]. do 3 (split; [reflexivity|]).
  split; [|split].
  - apply NoDup_filter_eq_length; [apply submitted_values_NoDup|].
    apply submitted_values_elem. by exists v1.
  - destruct (update_run new_values env tr) as (closing & o & -> & _). simpl.
    rewrite !elem_of_app. right. right. left.
    apply duplicate_event_logged.
    + apply originals_of_elem in Hkey.
      by rewrite mapping_of_originals in Hkey.
    + apply (two_elements_length _ v1 v2); [| |done];
        by apply list_elem_of_filter.
  - intros v. rewrite list_elem_of_filter, sanitize_value_run. simpl.
    split; intros [? ?]; split; congruence.
Qed.

(** C4: the JSON body of the single PUT lists, under [list_values], the
    sanitized values in ascending order of string comparison. *)
Theorem submitted_payload_is_sorted (new_values : list string)
    (env : remote) (tr : list event) :
  exists req values,
    requests_of (fst (Importer.update_infoblox_ea_values cfg ea_ref new_values env tr))
    = requests_of tr ++ [req]
    /\ method req = PUT
    /\ url req = UrlRef (INFOBLOX_API_ENDPOINT cfg) ea_ref
    /\ json_body req
       = Some (JObj [("list_values",
                      JArr (map (fun v => JObj [("value", JStr v)]) values))])
    /\ StronglySorted String.le values
    /\ forall s, s ∈ values
         <-> exists v, v ∈ new_values
                       /\ snd (Importer.sanitize_value v env tr) = Returned s.
Proof.
  exists (Importer.ea_put_request cfg ea_ref
            (Importer.make_payload (submitted_values new_values))),
         (submitted_values new_values).
  split; [apply update_requests|]. do 3 (split; [reflexivity|]). split.
  - apply StronglySorted_merge_sort; apply _.
  - intros s. rewrite submitted_values_elem.
    split; intros (v & Hv & Hs); exists v; split; try done.
    + rewrite sanitize_value_run. simpl. by rewrite Hs.
    + rewrite sanitize_value_run in Hs. simpl in Hs. congruence.
Qed.

(** C9: two collections of raw values with the same elements, in any order
    and with any repetitions, make the updater submit the same payload. *)
Theorem payload_depends_only_on_the_set (l1 l2 : list string)
    (env : remote) (tr : list event) :
  (forall x, x ∈ l1 <-> x ∈ l2) ->
  exists payload,
    requests_of (fst (Importer.update_infoblox_ea_values cfg ea_ref l1 env tr))
    = requests_of tr ++ [Importer.ea_put_request cfg ea_ref payload]
    /\ requests_of (fst (Importer.update_infoblox_ea_values cfg ea_ref l2 env tr))
    = requests_of tr ++ [Importer.ea_put_request cfg ea_ref payload].
Proof.
  intros Hsame. exists (Importer.make_payload (submitted_values l1)).
  split; [apply update_requests|].
  rewrite update_requests.
  assert (submitted_values l2 = submitted_values l1) as ->; [|done].
  apply (StronglySorted_unique String.le).
  - apply StronglySorted_merge_sort; apply _.
  - apply StronglySorted_merge_sort; apply _.
  - apply NoDup_Permutation; [apply submitted_values_NoDup..|].
    intros s. rewrite !submitted_values_elem. set_solver.
Qed.

End Updater.

(** ** A small logic of emitted events *)

Section Emits.

Context (Q : event -> Prop).

Lemma emits_ret {A} (a : A) : emits_only Q (ret a).
Proof. by intros env tr. Qed.

Lemma emits_sys_exit {A} (code : Z) : emits_only Q (@sys_exit A code).
Proof. by intros env tr. Qed.

Lemma emits_eval {A} (r : raised A) : emits_only Q (eval r).
Proof. intros env tr. by destruct r. Qed.

Lemma emits_log lvl fmt args : Q (EvLog lvl fmt args) -> emits_only Q (log lvl fmt args).
Proof. intros HQ env tr Htr. apply Forall_app. by repeat constructor. Qed.

Lemma emits_rprint fmt args : Q (EvPrint fmt args) -> emits_only Q (rprint fmt args).
Proof. intros HQ env tr Htr. apply Forall_app. by repeat constructor. Qed.

Lemma emits_http (req : request) : Q (EvRequest req) -> emits_only Q (http req).
Proof. intros HQ env tr Htr. apply Forall_app. by repeat constructor. Qed.

Lemma emits_bind {A B} (m : Py A) (k : A -> Py B) :
  emits_only Q m -> (forall a, emits_only Q (k a)) -> emits_only Q (bind m k).
Proof.
  intros Hm Hk env tr Htr. unfold bind.
  specialize (Hm env tr Htr).
  destruct (m env tr) as [tr' [a|code|e]]; simpl in *; [|done..].
  by apply Hk.
Qed.

(** The same when the continuation needs to know what [m] returned. *)
Lemma emits_bind_post {A B} (R : A -> Prop) (m : Py A) (k : A -> Py B) :
  emits_only Q m ->
  (forall env tr a, snd (m env tr) = Returned a -> R a) ->
  (forall a, R a -> emits_only Q (k a)) ->
  emits_only Q (bind m k).
Proof.
  intros Hm HR Hk env tr Htr. unfold bind.
  specialize (Hm env tr Htr). specialize (HR env tr).
  destruct (m env tr) as [tr' [a|code|e]]; simpl in *; [|done..].
  apply Hk; auto.
Qed.

End Emits.

Lemma on_requests_Forall (P : request -> Prop) (tr : list event) :
  Forall (on_requests P) tr -> Forall P (requests_of tr).
Proof.
  induction 1 as [|e tr He _ IH]; [constructor|].
  destruct e; simpl in *; [by constructor|done..].
Qed.

(** Splits a computation along its binds and branches, leaving one goal
    per emitted event. *)
Ltac emits_step :=
  first
    [ apply emits_ret
    | apply emits_sys_exit
    | apply emits_eval
    | apply emits_bind; [|intros ?]
    | apply emits_log
    | apply emits_rprint
    | apply emits_http
    | match goal with
      | |- emits_only _ (match ?x with _ => _ end) => destruct x
      | |- emits_only _ (if ?b then _ else _) => destruct b
      | |- emits_only _ (let (_, _) := ?x in _) => destruct x
      end ].

Ltac emits := repeat emits_step.

Section EmitsScripts.

Context (Q : event -> Prop) (cfg : Config).

Lemma emits_build_mapping (vs : list string) (m : list (string * list string)) :
  (forall v, Q (EvLog WARNING "Value '%s' exceeds %d characters and will be truncated."
                      [AStr v; AInt (Z.of_nat Importer.ENUM_MAX_LENGTH)])) ->
  emits_only Q (Importer.build_mapping vs m).
Proof.
  intros HQ. revert m. induction vs as [|v vs IH]; intros m; simpl.
  - apply emits_ret.
  - apply emits_bind; [|intros ?; apply IH].
    unfold Importer.sanitize_value. emits. apply HQ.
Qed.

Lemma emits_log_duplicates (items : list (string * list string)) :
  (forall k os, Q (EvLog WARNING "Duplicate sanitized value '%s' from original values: %s"
                         [AStr k; AStrs os])) ->
  emits_only Q (Importer.log_duplicates items).
Proof.
  intros HQ. induction items as [|[k os] items IH]; simpl.
  - apply emits_ret.
  - apply emits_bind; [|intros ?; apply IH]. emits. apply HQ.
Qed.

End EmitsScripts.

Ltac emits_script :=
  repeat first
    [ emits_step
    | apply emits_build_mapping; intros
    | apply emits_log_duplicates; intros ].

(** ** The attribute-definition reader *)

Section Reader.

Context (cfg : Config) (proxies : option (list (string * string)))
        (ea_name : string).

(** Both readers issue exactly one request, whatever the answer. *)
Lemma importer_reader_requests (env : remote) (tr : list event) :
  requests_of (fst (Importer.get_infoblox_ea_definition cfg ea_name env tr))
  = requests_of tr ++ [Importer.ea_get_request cfg ea_name].
Proof.
  unfold Importer.get_infoblox_ea_definition, bind, log, http, sys_exit, eval, ret.
  simpl. destruct (env _ _) as [msg|r]; simpl.
  { by rewrite requests_of_log, requests_of_request, requests_of_log. }
  destruct (negb (status_code r =? 200)%Z); simpl.
  { by rewrite requests_of_log, requests_of_request, requests_of_log. }
  destruct (body r) as [msg|data]; simpl.
  { by rewrite requests_of_log, requests_of_request, requests_of_log. }
  destruct (negb (py_truthy data)); simpl.
  { by rewrite requests_of_log, requests_of_request, requests_of_log. }
  destruct (py_first data) as [ea_def|e]; simpl.
  2: { by rewrite requests_of_request, requests_of_log. }
  destruct (py_get ea_def "_ref" JNull); simpl.
  - by rewrite requests_of_log, requests_of_request, requests_of_log.
  - by rewrite requests_of_request, requests_of_log.
Qed.



(** C10: when the array starts with a definition object, whatever follows
    it, the reader returns that first object and its [_ref] and logs only
    informational records. For the flush script the object's [list_values],
    if present, must have a length, as the array of a definition has. *)
Theorem reader_returns_first_of_many
    (r : response) (members : list (string * json)) (others : list json)
    (n : Z) (env : remote) (tr : list event) :
  env (requests_of tr) (Importer.ea_get_request cfg ea_name) = Responded r ->
  env (requests_of tr) (Flush.ea_get_request cfg proxies ea_name) = Responded r ->
  status_code r = 200%Z ->
  body r = Json (JArr (JObj members :: others)) ->
  others ≠ [] ->
  rbind (py_get (JObj members) "list_values" (JArr [])) py_len = Val n ->
  Importer.get_infoblox_ea_definition cfg ea_name env tr
  = (tr ++ [EvLog INFO "Fetching Infoblox EA definition for '%s': %s"
                  [AStr ea_name; AStr (Importer.ea_url cfg ea_name)];
            EvRequest (Importer.ea_get_request cfg ea_name);
            EvLog INFO "Obtained EA definition with reference: %s"
                  [AJson (from_option id JNull (dict_lookup "_ref" members))]],
     Returned (JObj members, from_option id JNull (dict_lookup "_ref" members)))
  /\ Flush.get_infoblox_ea_definition cfg proxies ea_name env tr
  = (tr ++ [EvLog INFO "GET EA definition '%s' -> %s"
                  [AStr ea_name;
                   AStr (Flush.INFOBLOX_ENDPOINT cfg +:+ "/extensibleattributedef")];
            EvRequest (Flush.ea_get_request cfg proxies ea_name);
            EvLog INFO "Found EA _ref=%s with %d values"
                  [AJson (from_option id JNull (dict_lookup "_ref" members)); AInt n]],
     Returned (JObj members, from_option id JNull (dict_lookup "_ref" members))).
Proof.
  intros Hi Hf Hstatus Hbody _ Hlen.
  unfold Importer.get_infoblox_ea_definition, Flush.get_infoblox_ea_definition,
    bind, log, http, sys_exit, eval, ret.
  simpl. rewrite !requests_of_log, Hi, Hf, Hstatus, Hbody. simpl.
  simpl in Hlen. rewrite Hlen. by rewrite <- !app_assoc.
Qed.

End Reader.

(** ** The fetcher and the synchronizer *)

Section Synchronizer.

Context (cfg : Config).

(** C6: when the ITSM read raises, answers with a status other than 200, or
    answers with a body the fetcher cannot use, the run ends with exit
    status 1 and that single read is the only request it ever issued. *)
Theorem itsm_failure_is_fatal_before_infoblox (env : remote) :
  snow_read_failed (env [] (Importer.snow_request cfg (proxy_dict <$> configured_proxy cfg))) ->
  exit_code (snd (Importer.main cfg env [])) = 1%Z
  /\ requests_of (fst (Importer.main cfg env []))
     = [Importer.snow_request cfg (proxy_dict <$> configured_proxy cfg)].
Proof.
  unfold snow_read_failed, Importer.main, Importer.get_snow_locations.
  destruct (configured_proxy cfg) as [p|]; simpl;
    unfold bind, log, http, sys_exit, eval, ret; simpl;
    (destruct (env [] _) as [msg|r]; simpl; [done|]);
    (destruct (Z.eqb_spec (status_code r) 200) as [Heq|Hne]; simpl;
       [|done]);
    (intros [?|Hbody]; [done|]);
    (destruct (body r) as [msg|data]; simpl; [done|]);
    destruct Hbody as [e Hrows]; unfold snow_rows in Hrows;
    (destruct (py_get data "result" (JArr [])) as [results|]; simpl in *; [|done]);
    (destruct (py_iter results) as [items|]; simpl in *; [|done]);
    by rewrite Hrows.
Qed.

(** The comparison at the decision point is between a list and a set, and
    never holds. *)
Lemma list_never_equals_set (l : list string) (s : gset pykey) :
  py_eq (PyList l) (PySet s) = false.
Proof. reflexivity. Qed.

Lemma emits_only_main (Q : event -> Prop) :
  (forall lvl fmt args,
     fmt ≠ "No changes required. Infoblox EA allowed values are up-to-date." ->
     Q (EvLog lvl fmt args)) ->
  Q (EvRequest (Importer.snow_request cfg (proxy_dict <$> configured_proxy cfg))) ->
  Q (EvRequest (Importer.ea_get_request cfg EXT_ATTR_NAME)) ->
  (forall ea_ref payload, Q (EvRequest (Importer.ea_put_request cfg ea_ref payload))) ->
  emits_only Q (Importer.main cfg).
Proof.
  intros Hlog Hsnow Hget Hput.
  unfold Importer.main, Importer.get_infoblox_ea_definition,
    Importer.update_infoblox_ea_values.
  apply emits_bind; [by apply emits_log, Hlog|intros _].
  apply emits_bind.
  { unfold Importer.get_snow_locations.
    apply (emits_bind_post Q (fun p => p = proxy_dict <$> configured_proxy cfg)).
    - destruct (configured_proxy cfg); emits; by apply Hlog.
    - intros env tr a. destruct (configured_proxy cfg); simpl; congruence.
    - intros a ->. emits; try (by apply Hlog). done. }
  intros snow_locations. cbn [py_eq].
  emits_script; try (by apply Hlog); done.
Qed.

(** The record of the no-change path is never logged. *)
Lemma no_change_path_unreachable (env : remote) :
  EvLog INFO "No changes required. Infoblox EA allowed values are up-to-date." []
  ∉ fst (Importer.main cfg env []).
Proof.
  intros Hin.
  assert (Forall (fun e => e ≠ EvLog INFO
            "No changes required. Infoblox EA allowed values are up-to-date." [])
            (fst (Importer.main cfg env []))) as Hall.
  { apply emits_only_main; [|done..|constructor].
    intros lvl fmt args Hfmt [= _ ? _]. done. }
  rewrite Forall_forall in Hall. by apply (Hall _ Hin).
Qed.

Lemma fetcher_requests (env : remote) (tr : list event) :
  requests_of (fst (Importer.get_snow_locations cfg env tr))
  = requests_of tr
    ++ [Importer.snow_request cfg (proxy_dict <$> configured_proxy cfg)].
Proof.
  unfold Importer.get_snow_locations.
  destruct (configured_proxy cfg) as [p|]; simpl;
    unfold bind, log, http, sys_exit, eval, ret; simpl;
    (destruct (env _ _) as [msg|r]; simpl;
      [by rewrite !requests_of_log, requests_of_request, !requests_of_log|]);
    (destruct (negb (status_code r =? 200)%Z); simpl;
      [by rewrite !requests_of_log, requests_of_request, !requests_of_log|]);
    (destruct (body r) as [msg|data]; simpl;
      [by rewrite !requests_of_log, requests_of_request, !requests_of_log|]);
    (destruct (py_get data "result" (JArr [])) as [results|]; simpl;
      [|by rewrite requests_of_request, !requests_of_log]);
    (destruct (py_iter results) as [items|]; simpl;
      [|by rewrite requests_of_request, !requests_of_log]);
    (destruct (Importer.location_set items ∅) as [locations|]; simpl;
      [|by rewrite requests_of_request, !requests_of_log]);
    by rewrite !requests_of_log, requests_of_request, !requests_of_log.
Qed.

Lemma flush_requests_shape (env : remote) :
  Forall (fun r =>
            r = Flush.ea_get_request cfg (proxy_dict <$> configured_proxy cfg)
                  EXT_ATTR_NAME
            \/ exists ea_ref,
                 r = Flush.ea_put_request cfg (proxy_dict <$> configured_proxy cfg)
                       ea_ref)
         (requests_of (fst (Flush.main cfg env []))).
Proof.
  apply on_requests_Forall.
  match goal with
  | |- Forall ?Q _ => enough (emits_only Q (Flush.main cfg)) as Hmain
  end.
  { apply Hmain. constructor. }
  unfold Flush.main, Flush.get_infoblox_ea_definition,
    Flush.update_infoblox_ea_values.
  apply (emits_bind_post _ (fun p => p = proxy_dict <$> configured_proxy cfg));
    [| |intros a ->; emits; simpl; eauto].
  - unfold Flush.proxy_setup. destruct (configured_proxy cfg); emits; done.
  - intros env' tr a. unfold Flush.proxy_setup.
    destruct (configured_proxy cfg); simpl; congruence.
Qed.

(** C8, as the code has it: the importer sets the configured proxy, for
    both schemes, on its ITSM read only; its reads and update of the
    attribute definition pass no proxy setting.  Every request of the flush
    script carries the configured proxy.  With no proxy configured, no
    request of either script has a proxy setting. *)
Theorem proxy_applies_to_itsm_read_and_flush
    (ea_name : string) (ea_ref : json) (new_values : list string)
    (env : remote) (tr : list event) :
  let proxy_setting :=
    (fun p => [("http", p); ("https", p)]) <$> configured_proxy cfg in
  (exists req,
     requests_of (fst (Importer.get_snow_locations cfg env tr))
     = requests_of tr ++ [req] /\ proxies req = proxy_setting)
  /\ (exists req,
        requests_of (fst (Importer.get_infoblox_ea_definition cfg ea_name env tr))
        = requests_of tr ++ [req] /\ proxies req = None)
  /\ (exists req,
        requests_of (fst (Importer.update_infoblox_ea_values cfg ea_ref new_values env tr))
        = requests_of tr ++ [req] /\ proxies req = None)
  /\ Forall (fun r =>
               r = Importer.snow_request cfg proxy_setting
               \/ (proxies r = None
                   /\ (r = Importer.ea_get_request cfg EXT_ATTR_NAME
                       \/ exists ref payload,
                            r = Importer.ea_put_request cfg ref payload)))
            (requests_of (fst (Importer.main cfg env [])))
  /\ Forall (fun r => proxies r = proxy_setting)
            (requests_of (fst (Flush.main cfg env []))).
Proof.
  intros proxy_setting. split_and!.
  - eexists. split; [apply fetcher_requests|done].
  - eexists. split; [apply importer_reader_requests|done].
  - eexists. split; [apply update_requests|done].
  - apply on_requests_Forall, emits_only_main;
      [by intros|by left|right; eauto|intros; right; eauto|constructor].
  - eapply Forall_impl; [apply flush_requests_shape|].
    intros r [->|[ref ->]]; done.
Qed.

End Synchronizer.

(** ** The flush script *)

Section FlushScript.

Context (cfg : Config).

(** C5: the flush update logs its payload, issues one PUT whose
    [list_values] is the one-element list holding ["CLEARED"], and logs the
    result; nothing is sanitized or sorted on the way.  Every update the
    whole script issues carries that payload, whatever the reader saw. *)
Theorem flush_submits_the_cleared_sentinel
    (proxies : option (list (string * string))) (ea_ref : json)
    (env : remote) (tr : list event) :
  let cleared := JObj [("list_values", JArr [JObj [("value", JStr "CLEARED")]])] in
  (exists lvl fmt args,
     fst (Flush.update_infoblox_ea_values cfg proxies ea_ref env tr)
     = tr ++ [EvLog INFO "PUT flush EA at %s  payload=%s"
                    [AUrl (UrlRef (Flush.INFOBLOX_ENDPOINT cfg) ea_ref); AJson cleared];
              EvRequest (Flush.ea_put_request cfg proxies ea_ref);
              EvLog lvl fmt args])
  /\ json_body (Flush.ea_put_request cfg proxies ea_ref) = Some cleared
  /\ Forall (fun r => json_body r = Some cleared)
            (filter (fun r => is_update r = true)
                    (requests_of (fst (Flush.main cfg env [])))).
Proof.
  intros cleared. split_and!.
  - unfold Flush.update_infoblox_ea_values, bind, log, http, sys_exit. simpl.
    destruct (env _ _) as [msg|r]; simpl.
    { eexists _, _, _. by rewrite <- !app_assoc. }
    destruct (negb _); simpl; eexists _, _, _; by rewrite <- !app_assoc.
  - done.
  - apply Forall_forall. intros r [Hput Hin]%list_elem_of_filter.
    pose proof (flush_requests_shape cfg env) as Hshape.
    rewrite Forall_forall in Hshape.
    destruct (Hshape r Hin) as [->|[ref ->]]; [discriminate|done].
Qed.

End FlushScript.

(** ** Runs on concrete remotes *)

(** C1 fails on the code: with the desired set equal to the current set,
    two runs in a row, against remotes that do not change, both return
    normally and each issues one update call. *)
Theorem equal_sets_still_issue_an_update :
  let cfg := sample_config None in
  let env := steady_remote ["US/NYC/HQ"; "US/LA/West"] ["US/NYC/HQ"; "US/LA/West"] in
  let first_run := Importer.main cfg env [] in
  let second_run := Importer.main cfg env (fst first_run) in
  fst first_run !! 4%nat
    = Some (EvLog INFO "Fetched %d locations from ServiceNow." [AInt 2])
  /\ fst first_run !! 8%nat
    = Some (EvLog INFO "Current Infoblox EA '%s' allowed values: %s"
                  [AStr "Location"; AKeySet {[KStr "US/NYC/HQ"; KStr "US/LA/West"]}])
  /\ fst first_run !! 9%nat
    = Some (EvLog INFO "ServiceNow provided %d allowed values: %s"
                  [AInt 2; AStrs ["US/LA/West"; "US/NYC/HQ"]])
  /\ snd first_run = Returned tt
  /\ update_calls (fst first_run) = 1
  /\ snd second_run = Returned tt
  /\ update_calls (fst second_run) = 2.
Proof. vm_compute. by repeat split. Qed.

(** The scenario of the specification: desired [{"US/NYC/HQ", "US/LA/West"}]
    against an empty current set gives one update with the sorted values,
    followed by a verification read. *)
Example sync_into_empty_definition :
  let cfg := sample_config None in
  let run := Importer.main cfg (steady_remote ["US/NYC/HQ"; "US/LA/West"] []) [] in
  requests_of (fst run)
  = [Importer.snow_request cfg None;
     Importer.ea_get_request cfg "Location";
     Importer.ea_put_request cfg (JStr "extensibleattributedef/b25l:Location")
       (Importer.make_payload ["US/LA/West"; "US/NYC/HQ"]);
     Importer.ea_get_request cfg "Location"].
Proof. vm_compute. reflexivity. Qed.

(** C8 fails as stated: with a proxy configured, the importer's read of the
    attribute definition is issued without it. *)
Lemma importer_infoblox_read_bypasses_proxy :
  let cfg := sample_config (Some "http://proxy.example:3128") in
  let env := steady_remote ["US/NYC/HQ"] [] in
  configured_proxy cfg = Some "http://proxy.example:3128"
  /\ ~ Forall (fun r => proxies r
                        = Some [("http", "http://proxy.example:3128");
                                ("https", "http://proxy.example:3128")])
             (requests_of (fst (Importer.main cfg env []))).
Proof.
  split; [reflexivity|]. intros Hall.
  apply (Forall_lookup_1 _ _ 1
           (Importer.ea_get_request
              (sample_config (Some "http://proxy.example:3128")) "Location"))
    in Hall; [discriminate|].
  vm_compute. reflexivity.
Qed.

(** ** Instances of the conditional theorems *)

Lemma colliding_values_witness :
  exists req values originals,
    requests_of (fst (Importer.update_infoblox_ea_values (sample_config None)
                        (JStr "ref") [long_name_a; "FR/Paris/HQ"; long_name_b]
                        (steady_remote [] []) []))
    = [] ++ [req]
    /\ method req = PUT
    /\ url req = UrlRef (INFOBLOX_API_ENDPOINT (sample_config None)) (JStr "ref")
    /\ json_body req
       = Some (JObj [("list_values",
                      JArr (map (fun v => JObj [("value", JStr v)]) values))])
    /\ length (filter (fun x => x = long_prefix) values) = 1
    /\ EvLog WARNING "Duplicate sanitized value '%s' from original values: %s"
             [AStr long_prefix; AStrs originals]
       ∈ fst (Importer.update_infoblox_ea_values (sample_config None)
                (JStr "ref") [long_name_a; "FR/Paris/HQ"; long_name_b]
                (steady_remote [] []) [])
    /\ forall v, v ∈ originals
         <-> v ∈ [long_name_a; "FR/Paris/HQ"; long_name_b]
             /\ snd (Importer.sanitize_value v (steady_remote [] []) [])
                = Returned long_prefix.
Proof.
  apply (colliding_values_submitted_once_and_logged (sample_config None)
           (JStr "ref") [long_name_a; "FR/Paris/HQ"; long_name_b]
           long_name_a long_name_b long_prefix (steady_remote [] []) []).
  - left.
  - right. right. left.
  - discriminate.
  - reflexivity.
  - reflexivity.
Defined.

Lemma payload_set_witness :
  exists payload,
    requests_of (fst (Importer.update_infoblox_ea_values (sample_config None)
                        (JStr "ref") ["b"; "a"; "b"] (steady_remote [] []) []))
    = [] ++ [Importer.ea_put_request (sample_config None) (JStr "ref") payload]
    /\ requests_of (fst (Importer.update_infoblox_ea_values (sample_config None)
                          (JStr "ref") ["a"; "b"] (steady_remote [] []) []))
    = [] ++ [Importer.ea_put_request (sample_config None) (JStr "ref") payload].
Proof.
  apply (payload_depends_only_on_the_set (sample_config None) (JStr "ref")
           ["b"; "a"; "b"] ["a"; "b"] (steady_remote [] []) []).
  intros x. rewrite !elem_of_cons. tauto.
Defined.

Lemma itsm_failure_witness :
  exit_code (snd (Importer.main (sample_config None) (always server_error) [])) = 1%Z
  /\ requests_of (fst (Importer.main (sample_config None) (always server_error) []))
     = [Importer.snow_request (sample_config None) None].
Proof.
  apply (itsm_failure_is_fatal_before_infoblox (sample_config None)
           (always server_error)).
  left. discriminate.
Defined.


Lemma reader_first_of_many_witness :
  let first := [("_ref", JStr "extensibleattributedef/one:Location");
                ("list_values", JArr [JObj [("value", JStr "US/NYC/HQ")]])] in
  let second := JObj [("_ref", JStr "extensibleattributedef/two:Location");
                      ("list_values", JArr [])] in
  let env := always (json_response (JArr [JObj first; second])) in
  snd (Importer.get_infoblox_ea_definition (sample_config None) "Location" env [])
  = Returned (JObj first, JStr "extensibleattributedef/one:Location")
  /\ snd (Flush.get_infoblox_ea_definition (sample_config None) None "Location" env [])
  = Returned (JObj first, JStr "extensibleattributedef/one:Location").
Proof.
  intros first second env.
  destruct (reader_returns_first_of_many (sample_config None) None "Location"
              (json_response (JArr [JObj first; second])) first [second] 1 env [])
    as [-> ->]; try reflexivity.
  - discriminate.
  - split; reflexivity.
Defined.

(** ** More on sanitization and the updater *)

Section SanitizeMore.

(** X1: the value [sanitize_value] returns never exceeds the limit, and
    sanitizing it again returns it unchanged without logging anything. *)
Theorem sanitize_value_bounded_and_idempotent (value : string)
    (env env' : remote) (tr tr' : list event) :
  exists result,
    snd (Importer.sanitize_value value env tr) = Returned result
    /\ String.length result <= 64
    /\ Importer.sanitize_value result env' tr' = (tr', Returned result).
Proof.
  exists (sanitized value). rewrite sanitize_value_run. split; [done|].
  assert (String.length (sanitized value) <= 64) as Hlen.
  { unfold sanitized, Importer.ENUM_MAX_LENGTH.
    destruct (Nat.ltb_spec 64 (String.length value)) as [Hgt|Hle]; [|done].
    destruct (substring_prefix 64 value) as [-> _]; lia. }
  split; [done|].
  unfold Importer.sanitize_value, Importer.ENUM_MAX_LENGTH.
  destruct (Nat.ltb_spec 64 (String.length (sanitized value))); [lia|done].
Qed.

(** X2: the flush script's [sanitize_value] returns a prefix of its input.
    For a non-negative [max_len] the prefix has at most [max_len]
    characters and a second call leaves it alone, logging nothing.  For a
    negative [max_len] the slice counts from the end: the result is the
    input without its last [-max_len] characters, empty when the input has
    no more than that. *)
Theorem flush_sanitize_value_bounded (value : string) (max_len : Z)
    (env env' : remote) (tr tr' : list event) :
  exists result rest,
    snd (Flush.sanitize_value value max_len env tr) = Returned result
    /\ value = result +:+ rest
    /\ if (0 <=? max_len)%Z
       then (Z.of_nat (String.length result) <= max_len)%Z
            /\ Flush.sanitize_value result max_len env' tr' = (tr', Returned result)
       else Z.of_nat (String.length result)
            = Z.max 0 (Z.of_nat (String.length value) + max_len).
Proof.
  unfold Flush.sanitize_value, py_slice_to.
  destruct (Z.ltb_spec max_len (Z.of_nat (String.length value))) as [Hgt|Hle];
    simpl.
  - destruct (Z.ltb_spec max_len 0) as [Hneg|Hpos].
    + destruct (substring_prefix
                  (Z.to_nat (Z.of_nat (String.length value) + max_len)) value)
        as [Hlen [rest Hrest]]; [lia|].
      eexists _, rest. split; [done|]. split; [done|].
      destruct (Z.leb_spec 0 max_len); [lia|]. rewrite Hlen. lia.
    + destruct (substring_prefix (Z.to_nat max_len) value)
        as [Hlen [rest Hrest]]; [lia|].
      eexists _, rest. split; [done|]. split; [done|].
      destruct (Z.leb_spec 0 max_len); [|lia]. rewrite Hlen.
      split; [lia|].
      destruct (Z.ltb_spec max_len (Z.of_nat (Z.to_nat max_len))); [lia|done].
  - exists value, EmptyString. split; [done|]. split.
    + clear. induction value as [|c s IH]; [done|].
      change (String c s = String c (s +:+ "")). by f_equal.
    + destruct (Z.leb_spec 0 max_len); [|lia]. split; [done|].
      destruct (Z.ltb_spec max_len (Z.of_nat (String.length value))); [lia|done].
Qed.

(** The slice with a negative bound, on a small input. *)
Example flush_sanitize_negative_max_len :
  Flush.sanitize_value "abcdef" (-2) (always server_error) []
  = ([EvLog WARNING "Value '%s' exceeds %d chars, truncating."
            [AStr "abcdef"; AInt (-2)]],
     Returned "abcd")
  /\ Flush.sanitize_value "abcd" (-2) (always server_error) []
  = ([EvLog WARNING "Value '%s' exceeds %d chars, truncating."
            [AStr "abcd"; AInt (-2)]],
     Returned "ab").
Proof. split; reflexivity. Qed.

End SanitizeMore.

Section UpdaterMore.

Context (cfg : Config) (ea_ref : json).

(** The whole run of the updater, as a function of the answer to its PUT. *)
Lemma update_run_full (new_values : list string) (env : remote) (tr : list event) :
  let payload := Importer.make_payload (submitted_values new_values) in
  let res := env (requests_of tr) (Importer.ea_put_request cfg ea_ref payload) in
  Importer.update_infoblox_ea_values cfg ea_ref new_values env tr
  = (tr ++ concat (map truncation_events new_values)
        ++ concat (map duplicate_event (mapping_of new_values []))
        ++ [EvLog INFO "Updating Infoblox EA values with payload: %s" [AJson payload];
            EvRequest (Importer.ea_put_request cfg ea_ref payload);
            fst (update_closing res)],
     snd (update_closing res)).
Proof.
  intros payload res.
  unfold Importer.update_infoblox_ea_values, bind at 1.
  rewrite build_mapping_run. unfold bind at 1. rewrite log_duplicates_run.
  fold (submitted_values new_values). fold payload.
  unfold bind, log, http, sys_exit. simpl.
  rewrite requests_of_log, !requests_of_app, requests_of_truncations,
    requests_of_duplicates, !app_nil_r.
  fold res. unfold update_closing.
  destruct res as [msg|r]; simpl.
  - by rewrite <- !app_assoc.
  - destruct (_ || _)%Z; simpl; by rewrite <- !app_assoc.
Qed.

Lemma sanitized_length (v : string) : String.length (sanitized v) <= 64.
Proof.
  unfold sanitized, Importer.ENUM_MAX_LENGTH.
  destruct (Nat.ltb_spec 64 (String.length v)) as [Hgt|Hle]; [|done].
  destruct (substring_prefix 64 v) as [-> _]; lia.
Qed.

(** X3: whatever the input, the values listed in the JSON body of the
    single PUT are pairwise distinct, none is longer than 64 characters,
    and the sanitized form of every input is among them. *)
Theorem submitted_values_distinct_and_bounded (new_values : list string)
    (env : remote) (tr : list event) :
  exists req values,
    requests_of (fst (Importer.update_infoblox_ea_values cfg ea_ref new_values env tr))
    = requests_of tr ++ [req]
    /\ method req = PUT
    /\ json_body req
       = Some (JObj [("list_values",
                      JArr (map (fun v => JObj [("value", JStr v)]) values))])
    /\ NoDup values
    /\ Forall (fun s => String.length s <= 64) values
    /\ Forall (fun v => exists s,
                         snd (Importer.sanitize_value v env tr) = Returned s
                         /\ s ∈ values)
              new_values.
Proof.
  exists (Importer.ea_put_request cfg ea_ref
            (Importer.make_payload (submitted_values new_values))),
         (submitted_values new_values).
  split; [apply update_requests|]. do 2 (split; [reflexivity|]).
  split; [apply submitted_values_NoDup|].
  split; [|apply Forall_forall; intros v Hv; exists (sanitized v); split;
            [by rewrite sanitize_value_run|apply submitted_values_elem; eauto]].
  apply Forall_forall. intros s (v & _ & <-)%submitted_values_elem.
  apply sanitized_length.
Qed.

Lemma truncation_event_elem (vs : list string) (e : event) :
  e ∈ concat (map truncation_events vs)
  <-> exists v, v ∈ vs /\ 64 < String.length v
                /\ e = EvLog WARNING "Value '%s' exceeds %d characters and will be truncated."
                             [AStr v; AInt 64].
Proof.
  induction vs as [|w vs IH]; simpl.
  - split; [by intros ?%not_elem_of_nil|]. intros (v & ?%not_elem_of_nil & _). done.
  - rewrite elem_of_app, IH. unfold truncation_events, Importer.ENUM_MAX_LENGTH.
    destruct (Nat.ltb_spec 64 (String.length w)) as [Hgt|Hle].
    + rewrite list_elem_of_singleton. split.
      * intros [->|(v & ? & ? & ?)]; [exists w|exists v]; split_and!; try done;
          [left|by right].
      * intros (v & [->|?]%elem_of_cons & ? & ?); [by left|right; eauto].
    + split.
      * intros [?%not_elem_of_nil|(v & ? & ? & ?)]; [done|].
        exists v. split_and!; try done. by right.
      * intros (v & [->|?]%elem_of_cons & ? & ?); [lia|right; eauto].
Qed.

Lemma duplicate_event_elem (items : list (string * list string)) (e : event) :
  e ∈ concat (map duplicate_event items)
  <-> exists k os, (k, os) ∈ items /\ 1 < length os
        /\ e = EvLog WARNING "Duplicate sanitized value '%s' from original values: %s"
                     [AStr k; AStrs os].
Proof.
  induction items as [|[k0 os0] items IH]; simpl.
  - split; [by intros ?%not_elem_of_nil|].
    intros (k & os & ?%not_elem_of_nil & _). done.
  - rewrite elem_of_app, IH. unfold duplicate_event at 1. simpl.
    destruct (Nat.ltb_spec 1 (length os0)) as [Hgt|Hle].
    + rewrite list_elem_of_singleton. split.
      * intros [->|(k & os & ? & ? & ?)]; [exists k0, os0|exists k, os];
          split_and!; try done; [left|by right].
      * intros (k & os & [[= -> ->]|?]%elem_of_cons & ? & ?); [by left|right; eauto].
    + split.
      * intros [?%not_elem_of_nil|(k & os & ? & ? & ?)]; [done|].
        exists k, os. split_and!; try done. by right.
      * intros (k & os & [[= -> ->]|?]%elem_of_cons & ? & ?); [lia|right; eauto].
Qed.

Lemma elem_originals_of (m : list (string * list string)) k os :
  NoDup m.*1 -> (k, os) ∈ m -> originals_of k m = os.
Proof.
  induction m as [|[k' os'] m IH]; simpl; intros Hnd Hin.
  - by apply not_elem_of_nil in Hin.
  - apply NoDup_cons in Hnd as [Hnotin Hnd].
    apply elem_of_cons in Hin as [[= <- <-]|Hin].
    + by rewrite String.eqb_refl.
    + destruct (String.eqb_spec k' k) as [->|Hne]; [|by apply IH].
      exfalso. apply Hnotin. apply list_elem_of_fmap. by exists (k, os).
Qed.

Lemma update_closing_not_warning (res : http_result) fmt args :
  fst (update_closing res) ≠ EvLog WARNING fmt args.
Proof.
  unfold update_closing. destruct res as [msg|r]; simpl; [done|].
  by destruct (_ || _)%Z.
Qed.

(** X4: run from an empty trace, the updater logs a truncation warning for
    a value exactly when that value is among its inputs and is longer than
    64 characters. *)
Theorem truncation_warning_iff_too_long (new_values : list string) (v : string)
    (env : remote) :
  EvLog WARNING "Value '%s' exceeds %d characters and will be truncated."
        [AStr v; AInt 64]
  ∈ fst (Importer.update_infoblox_ea_values cfg ea_ref new_values env [])
  <-> v ∈ new_values /\ 64 < String.length v.
Proof.
  rewrite update_run_full. cbn [fst]. rewrite app_nil_l, !elem_of_app.
  rewrite truncation_event_elem, duplicate_event_elem, !elem_of_cons.
  split.
  - intros [(w & ? & ? & [= ->])|[(k & os & _ & _ & ?)|[?|[?|[Hc|?%not_elem_of_nil]]]]];
      try done.
    symmetry in Hc. by apply update_closing_not_warning in Hc.
  - intros [? ?]. left. by exists v.
Qed.

(** X5: run from an empty trace, the updater logs a duplicate warning for a
    sanitized value exactly when more than one input position sanitizes to
    it; the warning lists those inputs in input order. *)
Theorem duplicate_warning_iff_collision (new_values : list string)
    (k : string) (originals : list string) (env : remote) :
  EvLog WARNING "Duplicate sanitized value '%s' from original values: %s"
        [AStr k; AStrs originals]
  ∈ fst (Importer.update_infoblox_ea_values cfg ea_ref new_values env [])
  <-> originals = filter (fun v => sanitized v = k) new_values
      /\ 1 < length originals.
Proof.
  rewrite update_run_full. cbn [fst]. rewrite app_nil_l, !elem_of_app.
  rewrite truncation_event_elem, duplicate_event_elem, !elem_of_cons.
  assert (NoDup (mapping_of new_values []).*1) as Hnd
    by (apply mapping_of_NoDup; constructor).
  split.
  - intros [(w & ? & ? & ?)|[(k' & os & Hin & Hlen & [= -> ->])|
             [?|[?|[Hc|?%not_elem_of_nil]]]]]; try done.
    + split; [|done].
      apply (elem_originals_of _ _ _ Hnd) in Hin.
      by rewrite mapping_of_originals in Hin.
    + symmetry in Hc. by apply update_closing_not_warning in Hc.
  - intros [-> Hlen]. right. left.
    exists k, (filter (fun v => sanitized v = k) new_values).
    split_and!; [|done..].
    assert (k ∈ (mapping_of new_values []).*1) as Hkey.
    { apply mapping_of_keys. right.
      destruct (filter _ new_values) as [|v l] eqn:E; simpl in Hlen; [lia|].
      assert (v ∈ filter (fun v => sanitized v = k) new_values) as Hv
        by (rewrite E; left).
      apply list_elem_of_filter in Hv as [? ?]. by exists v. }
    apply originals_of_elem in Hkey.
    by rewrite mapping_of_originals in Hkey.
Qed.

(** X6: the updater returns normally exactly when its PUT is answered with
    status 200 or 201; on any other status, or when the call raises, it
    logs an error record and exits with status 1. *)
Theorem update_succeeds_iff_200_or_201 (new_values : list string)
    (env : remote) (tr : list event) :
  let run := Importer.update_infoblox_ea_values cfg ea_ref new_values env tr in
  let res := env (requests_of tr)
               (Importer.ea_put_request cfg ea_ref
                  (Importer.make_payload (submitted_values new_values))) in
  (snd run = Returned tt
   <-> exists r, res = Responded r
                 /\ (status_code r = 200%Z \/ status_code r = 201%Z))
  /\ (snd run = Returned tt
      \/ (snd run = SystemExit 1%Z
          /\ exists fmt args, last (fst run) = Some (EvLog ERROR fmt args))).
Proof.
  intros run res. subst run. rewrite update_run_full. fold res. cbn [fst snd].
  assert (forall (l : list event) x y z, last (l ++ [x; y; z]) = Some z) as Hlast.
  { intros l x y z. change (l ++ [x; y; z]) with (l ++ [x; y] ++ [z]).
    rewrite app_assoc. apply last_snoc. }
  rewrite !app_assoc, Hlast.
  unfold update_closing. destruct res as [msg|r]; simpl.
  - split; [|right; eauto]. split; [done|]. by intros (r & ? & _).
  - destruct (Z.eqb_spec (status_code r) 200) as [H200|H200];
      [|destruct (Z.eqb_spec (status_code r) 201) as [H201|H201]]; simpl.
    + split; [|by left]. split; [eauto|done].
    + split; [|by left]. split; [eauto|done].
    + split; [|right; eauto]. split; [done|].
      intros (r' & [= <-] & [?|?]); done.
Qed.

End UpdaterMore.

(** ** More on the attribute-definition reader *)

Section ReaderMore.

Context (cfg : Config) (proxies : option (list (string * string)))
        (ea_name : string).

Lemma importer_reader_returns_inv (env : remote) (tr : list event)
    (ea_def ea_ref : json) :
  snd (Importer.get_infoblox_ea_definition cfg ea_name env tr)
  = Returned (ea_def, ea_ref)
  -> exists r members others,
        env (requests_of tr) (Importer.ea_get_request cfg ea_name) = Responded r
        /\ status_code r = 200%Z
        /\ body r = Json (JArr (JObj members :: others))
        /\ ea_def = JObj members
        /\ ea_ref = from_option id JNull (dict_lookup "_ref" members).
Proof.
  unfold Importer.get_infoblox_ea_definition, bind, log, http, sys_exit, eval, ret.
  simpl. rewrite requests_of_log.
  destruct (env _ _) as [msg|r]; simpl.
  { done. }
  destruct (Z.eqb_spec (status_code r) 200) as [H200|H200]; simpl.
  2: { done. }
  destruct (body r) as [msg|data] eqn:Hbody; simpl.
  { done. }
  destruct data as [|b|n|s|[|first rest]|members]; simpl; try done.
  - by destruct b.
  - by destruct (n =? 0)%Z.
  - by destruct s.
  - destruct first as [| | | | |members]; simpl; try done.
    intros [= <- <-]. by exists r, members, rest.
  - by destruct members.
Qed.

(** X7: the importer's reader returns normally exactly when the answer has
    status 200 and its body is a JSON array whose first element is an
    object; it then returns that object and the value under its [_ref], or
    [None] when the object has no [_ref]. *)
Theorem importer_reader_returns_iff (env : remote) (tr : list event)
    (ea_def ea_ref : json) :
  snd (Importer.get_infoblox_ea_definition cfg ea_name env tr)
  = Returned (ea_def, ea_ref)
  <-> exists r members others,
        env (requests_of tr) (Importer.ea_get_request cfg ea_name) = Responded r
        /\ status_code r = 200%Z
        /\ body r = Json (JArr (JObj members :: others))
        /\ ea_def = JObj members
        /\ ea_ref = from_option id JNull (dict_lookup "_ref" members).
Proof.
  split; [apply importer_reader_returns_inv|].
  intros (r & members & others & Hr & Hs & Hb & -> & ->).
  unfold Importer.get_infoblox_ea_definition, bind, log, http, sys_exit, eval, ret.
  simpl. by rewrite requests_of_log, Hr, Hs, Hb.
Qed.

Lemma flush_reader_returns_inv (env : remote) (tr : list event)
    (ea_def ea_ref : json) :
  snd (Flush.get_infoblox_ea_definition cfg proxies ea_name env tr)
  = Returned (ea_def, ea_ref)
  -> exists r members others n,
        env (requests_of tr) (Flush.ea_get_request cfg proxies ea_name) = Responded r
        /\ status_code r = 200%Z
        /\ body r = Json (JArr (JObj members :: others))
        /\ py_len (from_option id (JArr []) (dict_lookup "list_values" members)) = Val n
        /\ ea_def = JObj members
        /\ ea_ref = from_option id JNull (dict_lookup "_ref" members).
Proof.
  unfold Flush.get_infoblox_ea_definition, bind, log, http, sys_exit, eval, ret.
  simpl. rewrite requests_of_log.
  destruct (env _ _) as [msg|r]; simpl.
  { done. }
  destruct (Z.eqb_spec (status_code r) 200) as [H200|H200]; simpl.
  2: { done. }
  destruct (body r) as [msg|data] eqn:Hbody; simpl.
  { done. }
  destruct data as [|b|n|s|[|first rest]|members]; simpl; try done.
  - by destruct b.
  - by destruct (n =? 0)%Z.
  - by destruct s.
  - destruct first as [| | | | |members]; simpl; try done.
    destruct (py_len _) as [n|e] eqn:Hlen; simpl; [|done].
    intros [= <- <-]. by exists r, members, rest, n.
  - by destruct members.
Qed.

(** X8: the flush script's reader returns under the same condition, provided
    [len] applies to the object's [list_values] (absent, it counts as the
    empty list); its record then shows that length. *)
Theorem flush_reader_returns_iff (env : remote) (tr : list event)
    (ea_def ea_ref : json) :
  snd (Flush.get_infoblox_ea_definition cfg proxies ea_name env tr)
  = Returned (ea_def, ea_ref)
  <-> exists r members others n,
        env (requests_of tr) (Flush.ea_get_request cfg proxies ea_name) = Responded r
        /\ status_code r = 200%Z
        /\ body r = Json (JArr (JObj members :: others))
        /\ py_len (from_option id (JArr []) (dict_lookup "list_values" members)) = Val n
        /\ ea_def = JObj members
        /\ ea_ref = from_option id JNull (dict_lookup "_ref" members).
Proof.
  split; [apply flush_reader_returns_inv|].
  intros (r & members & others & n & Hr & Hs & Hb & Hlen & -> & ->).
  unfold Flush.get_infoblox_ea_definition, bind, log, http, sys_exit, eval, ret.
  simpl. rewrite requests_of_log, Hr, Hs, Hb. simpl. by rewrite Hlen.
Qed.

(** X9: when the call raises, the status is not 200, the body is not JSON,
    or the parsed body is falsy (an empty array, an empty object, [null],
    [0], [false] or the empty string), each reader adds exactly one error
    record after its request and exits with status 1. *)
Theorem readers_exit_on_rejected_answer (env : remote) (tr : list event) :
  reader_rejects (env (requests_of tr) (Importer.ea_get_request cfg ea_name)) ->
  reader_rejects (env (requests_of tr) (Flush.ea_get_request cfg proxies ea_name)) ->
  (exists fmt args,
     Importer.get_infoblox_ea_definition cfg ea_name env tr
     = (tr ++ [EvLog INFO "Fetching Infoblox EA definition for '%s': %s"
                     [AStr ea_name; AStr (Importer.ea_url cfg ea_name)];
               EvRequest (Importer.ea_get_request cfg ea_name);
               EvLog ERROR fmt args],
        SystemExit 1%Z))
  /\ (exists fmt args,
        Flush.get_infoblox_ea_definition cfg proxies ea_name env tr
        = (tr ++ [EvLog INFO "GET EA definition '%s' -> %s"
                        [AStr ea_name;
                         AStr (Flush.INFOBLOX_ENDPOINT cfg +:+ "/extensibleattributedef")];
                  EvRequest (Flush.ea_get_request cfg proxies ea_name);
                  EvLog ERROR fmt args],
           SystemExit 1%Z)).
Proof.
  unfold reader_rejects, Importer.get_infoblox_ea_definition,
    Flush.get_infoblox_ea_definition, bind, log, http, sys_exit, eval, ret.
  simpl. rewrite !requests_of_log. intros Hi Hf. split.
  - clear Hf. destruct (env _ _) as [msg|r]; simpl.
    { eexists _, _. by rewrite <- !app_assoc. }
    destruct (Z.eqb_spec (status_code r) 200) as [H200|H200]; simpl.
    2: { eexists _, _. by rewrite <- !app_assoc. }
    destruct Hi as [?|Hi]; [done|].
    destruct (body r) as [msg|data]; simpl.
    { eexists _, _. by rewrite <- !app_assoc. }
    rewrite Hi. simpl. eexists _, _. by rewrite <- !app_assoc.
  - clear Hi. destruct (env _ _) as [msg|r]; simpl.
    { eexists _, _. by rewrite <- !app_assoc. }
    destruct (Z.eqb_spec (status_code r) 200) as [H200|H200]; simpl.
    2: { eexists _, _. by rewrite <- !app_assoc. }
    destruct Hf as [?|Hf]; [done|].
    destruct (body r) as [msg|data]; simpl.
    { eexists _, _. by rewrite <- !app_assoc. }
    rewrite Hf. simpl. eexists _, _. by rewrite <- !app_assoc.
Qed.

(** X10: a 200 answer whose parsed body is truthy but is not an array
    starting with an object (an error document sent as an object, a bare
    string, a number, an array of strings) is not handled: the importer's
    reader dies with an uncaught exception, without any error record. *)
Theorem importer_reader_dies_on_unexpected_shape (env : remote) (tr : list event)
    (r : response) (data : json) :
  env (requests_of tr) (Importer.ea_get_request cfg ea_name) = Responded r ->
  status_code r = 200%Z ->
  body r = Json data ->
  py_truthy data = true ->
  match data with
  | JArr (JObj _ :: _) => False
  | _ => True
  end ->
  exists e,
    Importer.get_infoblox_ea_definition cfg ea_name env tr
    = (tr ++ [EvLog INFO "Fetching Infoblox EA definition for '%s': %s"
                    [AStr ea_name; AStr (Importer.ea_url cfg ea_name)];
              EvRequest (Importer.ea_get_request cfg ea_name)],
       Uncaught e).
Proof.
  intros Henv Hstatus Hbody Htruthy Hshape.
  unfold Importer.get_infoblox_ea_definition, bind, log, http, sys_exit, eval, ret.
  simpl. rewrite requests_of_log, Henv, Hstatus, Hbody. simpl.
  rewrite Htruthy. simpl.
  destruct data as [|b|n|s|[|first rest]|members]; simpl in *; try done;
    try (eexists; by rewrite <- !app_assoc).
  - destruct s; [done|]. eexists. by rewrite <- !app_assoc.
  - destruct first; simpl; try done; eexists; by rewrite <- !app_assoc.
Qed.

End ReaderMore.

(** ** More on the fetcher *)

Section FetcherMore.

Context (cfg : Config).

Lemma location_set_rows (rows : list json) (acc : gset string) :
  Forall row_ok rows ->
  exists locations,
    Importer.location_set rows acc = Val locations
    /\ forall s, s ∈ locations
         <-> s ∈ acc
             \/ exists members raw,
                  JObj members ∈ rows
                  /\ dict_lookup "name" members = Some (JStr raw)
                  /\ raw ≠ EmptyString
                  /\ s = strip raw.
Proof.
  intros Hrows. revert acc.
  induction Hrows as [|item rows Hitem _ IH]; intros acc; simpl.
  - exists acc. split; [done|]. intros s. split; [by left|].
    intros [?|(? & ? & ?%not_elem_of_nil & _)]; done.
  - destruct item as [| | | | |members]; simpl in Hitem; try done.
    unfold Importer.location_name. simpl.
    destruct (dict_lookup "name" members) as [v|] eqn:Hname; simpl.
    + destruct Hitem as [Hfalsy|[raw ->]].
      * rewrite Hfalsy. simpl.
        destruct (IH acc) as (locations & -> & Hlocs). exists locations.
        split; [done|]. intros s. rewrite Hlocs. clear Hlocs IH.
        setoid_rewrite elem_of_cons. split; [naive_solver|].
        intros [?|(m & raw & [[= ->]|?] & Hm & Hraw & ?)];
          [by left| |right; by exists m, raw].
        rewrite Hname in Hm. injection Hm as ->. simpl in Hfalsy.
        destruct (String.eqb_spec raw ""); done.
      * simpl. destruct (String.eqb_spec raw "") as [->|Hraw]; simpl.
        -- destruct (IH acc) as (locations & -> & Hlocs). exists locations.
           split; [done|]. intros s. rewrite Hlocs. clear Hlocs IH.
           setoid_rewrite elem_of_cons. split; [naive_solver|].
           intros [?|(m & raw & [[= ->]|?] & Hm & Hraw & ?)];
             [by left| |right; by exists m, raw].
           rewrite Hname in Hm. by injection Hm as <-.
        -- destruct (IH (acc ∪ {[strip raw]})) as (locations & -> & Hlocs).
           exists locations. split; [done|]. intros s. rewrite Hlocs.
           clear Hlocs IH. setoid_rewrite elem_of_cons.
           rewrite elem_of_union, elem_of_singleton. split.
           ++ intros [[?| ->]|(m & raw' & ? & ? & ? & ?)]; [by left| |].
              ** right. exists members, raw. split_and!; try done. by left.
              ** right. exists m, raw'. split_and!; try done. by right.
           ++ intros [?|(m & raw' & [[= ->]|?] & Hm & Hraw' & ->)].
              ** by left; left.
              ** rewrite Hname in Hm. injection Hm as <-. by left; right.
              ** right. by exists m, raw'.
    + destruct (IH acc) as (locations & -> & Hlocs). exists locations.
      split; [done|]. intros s. rewrite Hlocs. clear Hlocs IH.
      setoid_rewrite elem_of_cons. split; [naive_solver|].
      intros [?|(m & raw & [[= ->]|?] & Hm & Hraw & ?)];
        [by left| |right; by exists m, raw].
      congruence.
Qed.

Lemma strip_all_space (raw : string) : all_space raw = true -> strip raw = EmptyString.
Proof.
  intros Hraw. unfold strip.
  assert (lstrip raw = EmptyString) as ->; [|done].
  induction raw as [|c raw IH]; simpl in *; [done|].
  apply andb_true_iff in Hraw as [-> ?]. auto.
Qed.

Lemma fetcher_returns_of_rows (env : remote) (tr : list event)
    (r : response) (data : json) (locations : gset string) :
  env (requests_of tr)
      (Importer.snow_request cfg (proxy_dict <$> configured_proxy cfg))
  = Responded r ->
  status_code r = 200%Z ->
  body r = Json data ->
  snow_rows data = Val locations ->
  snd (Importer.get_snow_locations cfg env tr) = Returned locations
  /\ last (fst (Importer.get_snow_locations cfg env tr))
     = Some (EvLog INFO "Fetched %d locations from ServiceNow."
                   [AInt (Z.of_nat (size locations))]).
Proof.
  intros Henv Hstatus Hbody Hrows. unfold snow_rows in Hrows.
  unfold Importer.get_snow_locations.
  destruct (configured_proxy cfg) as [p|]; simpl in *;
    unfold bind, log, http, sys_exit, eval, ret; simpl;
    rewrite !requests_of_log, Henv, Hstatus, Hbody; simpl;
    (destruct (py_get data "result" (JArr [])) as [results|]; simpl in *; [|done]);
    (destruct (py_iter results) as [items|]; simpl in *; [|done]);
    rewrite Hrows; simpl; (split; [done|apply last_snoc]).
Qed.

(** X11: on a 200 answer whose body is an object with rows of the documented
    shape under [result] (no [result] key counts as no rows), the fetcher
    returns the set of the stripped non-empty names, skips the rows with no
    name or a falsy one, and records the size of that set. *)
Theorem fetcher_returns_stripped_names (env : remote) (tr : list event)
    (r : response) (top : list (string * json)) (rows : list json) :
  env (requests_of tr)
      (Importer.snow_request cfg (proxy_dict <$> configured_proxy cfg))
  = Responded r ->
  status_code r = 200%Z ->
  body r = Json (JObj top) ->
  from_option id (JArr []) (dict_lookup "result" top) = JArr rows ->
  Forall row_ok rows ->
  exists locations,
    snd (Importer.get_snow_locations cfg env tr) = Returned locations
    /\ last (fst (Importer.get_snow_locations cfg env tr))
       = Some (EvLog INFO "Fetched %d locations from ServiceNow."
                     [AInt (Z.of_nat (size locations))])
    /\ forall s, s ∈ locations
         <-> exists members raw,
               JObj members ∈ rows
               /\ dict_lookup "name" members = Some (JStr raw)
               /\ raw ≠ EmptyString
               /\ s = strip raw.
Proof.
  intros Henv Hstatus Hbody Hresult Hrows.
  destruct (location_set_rows rows ∅ Hrows) as (locations & Hset & Hlocs).
  exists locations.
  destruct (fetcher_returns_of_rows env tr r (JObj top) locations)
    as [Hret Hlast]; try done.
  { unfold snow_rows. simpl. rewrite Hresult. done. }
  split_and!; [done..|].
  intros s. rewrite Hlocs. set_solver.
Qed.

(** X12: a name made only of whitespace passes the truthiness test before
    it is stripped, so it puts the empty string into the returned set. *)
Theorem blank_name_yields_empty_location (env : remote) (tr : list event)
    (r : response) (top : list (string * json)) (rows : list json)
    (members : list (string * json)) (raw : string) :
  env (requests_of tr)
      (Importer.snow_request cfg (proxy_dict <$> configured_proxy cfg))
  = Responded r ->
  status_code r = 200%Z ->
  body r = Json (JObj top) ->
  from_option id (JArr []) (dict_lookup "result" top) = JArr rows ->
  Forall row_ok rows ->
  JObj members ∈ rows ->
  dict_lookup "name" members = Some (JStr raw) ->
  raw ≠ EmptyString ->
  all_space raw = true ->
  exists locations,
    snd (Importer.get_snow_locations cfg env tr) = Returned locations
    /\ EmptyString ∈ locations.
Proof.
  intros Henv Hstatus Hbody Hresult Hrows Hin Hname Hraw Hspace.
  destruct (location_set_rows rows ∅ Hrows) as (locations & Hset & Hlocs).
  exists locations.
  destruct (fetcher_returns_of_rows env tr r (JObj top) locations)
    as [Hret _]; try done.
  { unfold snow_rows. simpl. rewrite Hresult. done. }
  split; [done|]. apply Hlocs. right.
  exists members, raw. split_and!; try done.
  symmetry. by apply strip_all_space.
Qed.

End FetcherMore.

(** ** The synchronizer as a whole *)

Section MainFlow.

Context (cfg : Config).

Lemma fetcher_returns_inv (env : remote) (tr : list event) (locations : gset string) :
  snd (Importer.get_snow_locations cfg env tr) = Returned locations ->
  exists r data,
    env (requests_of tr)
        (Importer.snow_request cfg (proxy_dict <$> configured_proxy cfg))
    = Responded r
    /\ status_code r = 200%Z
    /\ body r = Json data
    /\ snow_rows data = Val locations.
Proof.
  unfold Importer.get_snow_locations, snow_rows.
  destruct (configured_proxy cfg) as [p|]; simpl;
    unfold bind, log, http, sys_exit, eval, ret; simpl;
    rewrite !requests_of_log;
    (destruct (env _ _) as [msg|r]; simpl; [done|]);
    (destruct (Z.eqb_spec (status_code r) 200) as [H200|H200]; simpl; [|done]);
    (destruct (body r) as [msg|data] eqn:Hbody; simpl; [done|]);
    (destruct (py_get data "result" (JArr [])) as [results|] eqn:Hget;
       simpl; [|done]);
    (destruct (py_iter results) as [items|] eqn:Hiter; simpl; [|done]);
    (destruct (Importer.location_set items ∅) as [locs|] eqn:Hset;
       simpl; [|done]);
    intros [= <-]; exists r, data; split_and!; try done;
    rewrite Hget; simpl; rewrite Hiter; simpl; done.
Qed.

Lemma fetcher_outcome (env : remote) (tr : list event) :
  returned_or_failed (snd (Importer.get_snow_locations cfg env tr)).
Proof.
  unfold Importer.get_snow_locations.
  destruct (configured_proxy cfg) as [p|]; simpl;
    unfold bind, log, http, sys_exit, eval, ret; simpl;
    (destruct (env _ _) as [msg|r]; simpl; [done|]);
    (destruct (negb _); simpl; [done|]);
    (destruct (body r) as [msg|data]; simpl; [done|]);
    (destruct (py_get data "result" (JArr [])) as [results|]; simpl; [|done]);
    (destruct (py_iter results) as [items|]; simpl; [|done]);
    by destruct (Importer.location_set items ∅).
Qed.

Lemma reader_outcome (ea_name : string) (env : remote) (tr : list event) :
  returned_or_failed (snd (Importer.get_infoblox_ea_definition cfg ea_name env tr)).
Proof.
  unfold Importer.get_infoblox_ea_definition, bind, log, http, sys_exit, eval, ret.
  simpl. destruct (env _ _) as [msg|r]; simpl; [done|].
  destruct (negb (status_code r =? 200)%Z); simpl; [done|].
  destruct (body r) as [msg|data]; simpl; [done|].
  destruct (negb (py_truthy data)); simpl; [done|].
  destruct (py_first data) as [ea_def|e]; simpl; [|done].
  by destruct (py_get ea_def "_ref" JNull).
Qed.

Lemma update_outcome (ea_ref : json) (new_values : list string)
    (env : remote) (tr : list event) :
  returned_or_failed
    (snd (Importer.update_infoblox_ea_values cfg ea_ref new_values env tr)).
Proof.
  rewrite update_run_full. cbn [snd]. unfold update_closing.
  destruct (env _ _) as [msg|r]; simpl; [done|]. by destruct (_ || _)%Z.
Qed.

Lemma returned_or_failed_exit {A} (o : outcome A) :
  returned_or_failed o -> (exists a, o = Returned a) \/ exit_code o = 1%Z.
Proof. destruct o; simpl; eauto. Qed.

Ltac tidy H :=
  cbn [fst snd] in H; rewrite ?requests_of_log in H;
  change (requests_of []) with (@nil request) in H; cbn [app] in H.

Lemma main_returns_inv (env : remote) :
  snd (Importer.main cfg env []) = Returned tt ->
  let snow := Importer.snow_request cfg (proxy_dict <$> configured_proxy cfg) in
  let get := Importer.ea_get_request cfg EXT_ATTR_NAME in
  exists r0 data locations r1 members others,
    env [] snow = Responded r0
    /\ status_code r0 = 200%Z
    /\ body r0 = Json data
    /\ snow_rows data = Val locations
    /\ env [snow] get = Responded r1
    /\ status_code r1 = 200%Z
    /\ body r1 = Json (JArr (JObj members :: others))
    /\ requests_of (fst (Importer.main cfg env []))
       = [snow; get;
          Importer.ea_put_request cfg
            (from_option id JNull (dict_lookup "_ref" members))
            (Importer.make_payload
               (submitted_values
                  (merge_sort Importer.location_le (elements locations))));
          get].
Proof.
  intros Hret snow get. revert Hret.
  cbv [Importer.main bind log eval py_eq].
  match goal with
  | |- context [Importer.get_snow_locations cfg env ?t] =>
      pose proof (fetcher_requests cfg env t) as R1;
      pose proof (fetcher_returns_inv env t) as I1
  end.
  destruct (Importer.get_snow_locations cfg env _) as [tr1 [locs|c|e]];
    [|done..].
  destruct (I1 locs eq_refl) as (r0 & data & Hr0 & Hs0 & Hb0 & Hrows).
  clear I1. tidy R1. tidy Hr0.
  pose proof (importer_reader_requests cfg EXT_ATTR_NAME env tr1) as R2.
  pose proof (fun d f => importer_reader_returns_inv cfg EXT_ATTR_NAME
                          env tr1 d f) as I2.
  destruct (Importer.get_infoblox_ea_definition cfg EXT_ATTR_NAME env tr1)
    as [tr2 [[ea_def ea_ref]|c|e]]; [|done..].
  destruct (I2 _ _ eq_refl) as (r1 & members & others & Hr1 & Hs1 & Hb1 & -> & ->).
  clear I2. tidy R2. rewrite R1 in R2, Hr1. tidy R2. tidy Hr1.
  destruct (Importer.allowed_values (JObj members)) as [current|e]; [|done].
  match goal with
  | |- context [Importer.update_infoblox_ea_values cfg ?f ?l env ?t] =>
      pose proof (update_requests cfg f l env t) as R3
  end.
  destruct (Importer.update_infoblox_ea_values cfg _ _ env _) as [tr3 [u|c|e]];
    [|done..].
  tidy R3. rewrite R2 in R3. tidy R3.
  pose proof (importer_reader_requests cfg EXT_ATTR_NAME env tr3) as R4.
  destruct (Importer.get_infoblox_ea_definition cfg EXT_ATTR_NAME env tr3)
    as [tr4 [[ea_def_after ea_ref_after]|c|e]]; [|done..].
  tidy R4. rewrite R3 in R4. tidy R4.
  destruct (Importer.allowed_values ea_def_after) as [updated|e]; [|done].
  intros _. cbn [fst]. rewrite !requests_of_log, R4.
  exists r0, data, locs, r1, members, others. by split_and!.
Qed.

(** X13: a run that returns normally has issued exactly four requests, in
    this order: the ITSM read, the read of the attribute definition, one
    PUT addressed at the [_ref] of the first definition that read returned
    (or at [None] when it has none), and a second read of the definition.
    The JSON body of the PUT lists the sanitized names of the ITSM answer
    in ascending string order. *)
Theorem main_normal_run (env : remote) :
  snd (Importer.main cfg env []) = Returned tt ->
  let snow := Importer.snow_request cfg (proxy_dict <$> configured_proxy cfg) in
  let get := Importer.ea_get_request cfg EXT_ATTR_NAME in
  exists r0 data locations r1 members others put values,
    env [] snow = Responded r0
    /\ status_code r0 = 200%Z
    /\ body r0 = Json data
    /\ snow_rows data = Val locations
    /\ env [snow] get = Responded r1
    /\ status_code r1 = 200%Z
    /\ body r1 = Json (JArr (JObj members :: others))
    /\ requests_of (fst (Importer.main cfg env [])) = [snow; get; put; get]
    /\ method put = PUT
    /\ url put = UrlRef (INFOBLOX_API_ENDPOINT cfg)
                       (from_option id JNull (dict_lookup "_ref" members))
    /\ json_body put
       = Some (JObj [("list_values",
                      JArr (map (fun v => JObj [("value", JStr v)]) values))])
    /\ StronglySorted String.le values
    /\ forall s, s ∈ values
         <-> exists v, v ∈ locations
                       /\ snd (Importer.sanitize_value v env []) = Returned s.
Proof.
  intros Hret snow get.
  destruct (main_returns_inv env Hret)
    as (r0 & data & locations & r1 & members & others
        & Hr0 & Hs0 & Hb0 & Hrows & Hr1 & Hs1 & Hb1 & Hreq).
  exists r0, data, locations, r1, members, others,
    (Importer.ea_put_request cfg
       (from_option id JNull (dict_lookup "_ref" members))
       (Importer.make_payload
          (submitted_values
             (merge_sort Importer.location_le (elements locations))))),
    (submitted_values (merge_sort Importer.location_le (elements locations))).
  split_and!; try done.
  - apply StronglySorted_merge_sort; apply _.
  - intros s. rewrite submitted_values_elem.
    setoid_rewrite merge_sort_Permutation. setoid_rewrite elem_of_elements.
    setoid_rewrite sanitize_value_run. simpl.
    split; intros (v & ? & ?); exists v; split; congruence.
Qed.

(** X14: in every run, the requests issued are a non-empty initial segment
    of ITSM read, definition read, update, definition read; the run either
    returns normally after all four or leaves exit status 1. *)
Theorem main_requests_form_a_prefix (env : remote) :
  let snow := Importer.snow_request cfg (proxy_dict <$> configured_proxy cfg) in
  let get := Importer.ea_get_request cfg EXT_ATTR_NAME in
  exists ea_ref payload n,
    1 <= n
    /\ requests_of (fst (Importer.main cfg env []))
       = take n [snow; get; Importer.ea_put_request cfg ea_ref payload; get]
    /\ ((snd (Importer.main cfg env []) = Returned tt /\ n = 4)
        \/ exit_code (snd (Importer.main cfg env [])) = 1%Z).
Proof.
  intros snow get.
  cbv [Importer.main bind log eval py_eq].
  match goal with
  | |- context [Importer.get_snow_locations cfg env ?t] =>
      pose proof (fetcher_requests cfg env t) as R1;
      pose proof (fetcher_outcome env t) as O1
  end.
  destruct (Importer.get_snow_locations cfg env _) as [tr1 [locs|c|e]];
    tidy R1; simpl in O1.
  2, 3: exists JNull, JNull, 1; cbn [fst snd]; rewrite R1; split_and!; [lia|done|right; simpl; done].
  pose proof (importer_reader_requests cfg EXT_ATTR_NAME env tr1) as R2.
  pose proof (reader_outcome EXT_ATTR_NAME env tr1) as O2.
  destruct (Importer.get_infoblox_ea_definition cfg EXT_ATTR_NAME env tr1)
    as [tr2 [[ea_def ea_ref]|c|e]]; tidy R2; simpl in O2; rewrite R1 in R2; tidy R2.
  2, 3: exists JNull, JNull, 2; cbn [fst snd]; rewrite R2; split_and!; [lia|done|right; simpl; done].
  destruct (Importer.allowed_values ea_def) as [current|e].
  2: { exists JNull, JNull, 2. cbn [fst snd]. rewrite R2. split_and!; [lia|done|by right]. }
  match goal with
  | |- context [Importer.update_infoblox_ea_values cfg ?f ?l env ?t] =>
      pose proof (update_requests cfg f l env t) as R3;
      pose proof (update_outcome f l env t) as O3
  end.
  destruct (Importer.update_infoblox_ea_values cfg _ _ env _) as [tr3 [u|c|e]];
    tidy R3; simpl in O3; rewrite R2 in R3; tidy R3.
  2, 3: eexists _, _, 3; cbn [fst snd]; rewrite R3; split_and!; [lia|done|right; simpl; done].
  pose proof (importer_reader_requests cfg EXT_ATTR_NAME env tr3) as R4.
  pose proof (reader_outcome EXT_ATTR_NAME env tr3) as O4.
  destruct (Importer.get_infoblox_ea_definition cfg EXT_ATTR_NAME env tr3)
    as [tr4 [[ea_def_after ea_ref_after]|c|e]]; tidy R4; simpl in O4; rewrite R3 in R4; tidy R4.
  2, 3: eexists _, _, 4; cbn [fst snd]; rewrite R4; split_and!; [lia|done|right; simpl; done].
  destruct (Importer.allowed_values ea_def_after) as [updated|e].
  - eexists _, _, 4. cbn [fst snd]. rewrite !requests_of_log, R4.
    split_and!; [lia|done|by left].
  - eexists _, _, 4. cbn [fst snd]. rewrite R4.
    split_and!; [lia|done|by right].
Qed.

(** X15: when the ITSM answer holds no rows (an empty [result], or none at
    all), a run that returns normally has issued a PUT whose JSON body
    replaces the allowed values with the empty list. *)
Theorem empty_itsm_answer_submits_empty_list (env : remote) (r0 : response)
    (top : list (string * json)) :
  let snow := Importer.snow_request cfg (proxy_dict <$> configured_proxy cfg) in
  let get := Importer.ea_get_request cfg EXT_ATTR_NAME in
  env [] snow = Responded r0 ->
  status_code r0 = 200%Z ->
  body r0 = Json (JObj top) ->
  from_option id (JArr []) (dict_lookup "result" top) = JArr [] ->
  snd (Importer.main cfg env []) = Returned tt ->
  exists put,
    requests_of (fst (Importer.main cfg env [])) = [snow; get; put; get]
    /\ method put = PUT
    /\ json_body put = Some (JObj [("list_values", JArr [])]).
Proof.
  intros snow get Henv Hstatus Hbody Hresult Hret.
  destruct (main_returns_inv env Hret)
    as (r0' & data & locations & r1 & members & others
        & Hr0 & _ & Hb0 & Hrows & _ & _ & _ & Hreq).
  fold snow in Hr0. rewrite Henv in Hr0. injection Hr0 as <-.
  rewrite Hbody in Hb0. injection Hb0 as <-.
  unfold snow_rows in Hrows. simpl in Hrows. rewrite Hresult in Hrows.
  simpl in Hrows. injection Hrows as <-.
  rewrite elements_empty in Hreq.
  eexists. split; [exact Hreq|]. split; reflexivity.
Qed.

Lemma value_set_entries (entries : list json) (acc : gset pykey) :
  Forall entry_ok entries ->
  exists current,
    Importer.value_set entries acc = Val current
    /\ forall k, k ∈ current
         <-> k ∈ acc
             \/ exists members v,
                  JObj members ∈ entries
                  /\ dict_lookup "value" members = Some v
                  /\ py_hashable v = Val k.
Proof.
  intros Hentries. revert acc.
  induction Hentries as [|entry entries Hentry _ IH]; intros acc; simpl.
  - exists acc. split; [done|]. intros k. split; [by left|].
    intros [?|(? & ? & ?%not_elem_of_nil & _)]; done.
  - destruct entry as [| | | | |members]; simpl in Hentry; try done.
    unfold Importer.entry_value. simpl.
    destruct (dict_lookup "value" members) as [v|] eqn:Hvalue; simpl.
    + destruct Hentry as [k0 Hk0]. rewrite Hk0. simpl.
      destruct (IH (acc ∪ {[k0]})) as (current & -> & Hcur).
      exists current. split; [done|]. intros k. rewrite Hcur. clear Hcur IH.
      setoid_rewrite elem_of_cons. rewrite elem_of_union, elem_of_singleton.
      split.
      * intros [[?| ->]|(m & v' & ? & ? & ?)]; [by left| |].
        -- right. exists members, v. split_and!; try done. by left.
        -- right. exists m, v'. split_and!; try done. by right.
      * intros [?|(m & v' & [[= ->]|?] & Hm & Hk)].
        -- by left; left.
        -- rewrite Hvalue in Hm. injection Hm as <-.
           rewrite Hk0 in Hk. injection Hk as ->. by left; right.
        -- right. by exists m, v'.
    + destruct (IH acc) as (current & -> & Hcur). exists current.
      split; [done|]. intros k. rewrite Hcur. clear Hcur IH.
      setoid_rewrite elem_of_cons. split; [naive_solver|].
      intros [?|(m & v' & [[= ->]|?] & Hm & Hk)];
        [by left| |right; by exists m, v'].
      congruence.
Qed.

(** X16: the current value set the synchronizer reads off a definition
    holds the [value] of every entry of [list_values] that has one, and
    nothing else; a definition without [list_values] gives the empty set.
    ([True] and [False] count as [1] and [0], as in a Python set.) *)
Theorem allowed_values_of_definition (members : list (string * json))
    (entries : list json) :
  from_option id (JArr []) (dict_lookup "list_values" members) = JArr entries ->
  Forall entry_ok entries ->
  exists current,
    Importer.allowed_values (JObj members) = Val current
    /\ forall k, k ∈ current
         <-> exists entry v,
               JObj entry ∈ entries
               /\ dict_lookup "value" entry = Some v
               /\ py_hashable v = Val k.
Proof.
  intros Hlist Hentries.
  destruct (value_set_entries entries ∅ Hentries) as (current & Hset & Hcur).
  exists current. unfold Importer.allowed_values. simpl. rewrite Hlist. simpl.
  split; [done|]. intros k. rewrite Hcur. set_solver.
Qed.

(** X17: an entry whose [value] is a list or an object cannot go into a
    set: reading the current values then raises, whatever the other
    entries are. *)
Theorem allowed_values_raises_on_unhashable (members : list (string * json))
    (entries : list json) (entry : list (string * json)) (v : json) (e : pyexn) :
  from_option id (JArr []) (dict_lookup "list_values" members) = JArr entries ->
  JObj entry ∈ entries ->
  dict_lookup "value" entry = Some v ->
  py_hashable v = Exn e ->
  exists e', Importer.allowed_values (JObj members) = Exn e'.
Proof.
  intros Hlist Hin Hvalue Hhash.
  unfold Importer.allowed_values. simpl. rewrite Hlist. simpl.
  clear Hlist. generalize (∅ : gset pykey).
  induction entries as [|first entries IH]; intros acc.
  - by apply not_elem_of_nil in Hin.
  - simpl. destruct (Importer.entry_value first) as [k|e0] eqn:Hfirst; simpl;
      [|eauto].
    apply elem_of_cons in Hin as [<-|Hin]; [|by apply IH].
    unfold Importer.entry_value in Hfirst. simpl in Hfirst.
    rewrite Hvalue in Hfirst. simpl in Hfirst. rewrite Hhash in Hfirst. done.
Qed.

End MainFlow.

(** ** The component-wise order of the synchronizer's sort *)

Section LocationOrder.

Lemma string_ltb_leb (a b : string) :
  String.ltb a b = true <-> String.le a b /\ a ≠ b.
Proof.
  unfold String.le, String.ltb, String.leb.
  destruct (String.compare a b) eqn:Hcmp; simpl.
  - apply String.compare_eq_iff in Hcmp as ->. split; [done|].
    intros [_ Hne]. by destruct Hne.
  - split; [|done]. intros _. split; [done|]. intros ->.
    pose proof (String.compare_antisym b b) as Hanti.
    rewrite Hcmp in Hanti. discriminate.
  - split; [done|]. by intros [? _].
Qed.

Lemma string_ltb_irrefl (a : string) : String.ltb a a = false.
Proof.
  destruct (String.ltb a a) eqn:H; [|done].
  apply string_ltb_leb in H as [_ ?]. done.
Qed.

Lemma string_ltb_trans (a b c : string) :
  String.ltb a b = true -> String.ltb b c = true -> String.ltb a c = true.
Proof.
  rewrite !string_ltb_leb. intros [Hab Hne] [Hbc Hne']. split.
  - by etrans.
  - intros ->. apply Hne. by apply (anti_symm String.le).
Qed.

Lemma string_ltb_total (a b : string) :
  a ≠ b -> String.ltb a b = true \/ String.ltb b a = true.
Proof.
  intros Hne. rewrite !string_ltb_leb.
  destruct (total String.le a b); [left|right]; split; congruence.
Qed.

Lemma tuple_ltb_irrefl (a : list string) : tuple_ltb a a = false.
Proof. induction a as [|x a IH]; simpl; [done|]. by rewrite String.eqb_refl. Qed.

Lemma tuple_ltb_trans (a b c : list string) :
  tuple_ltb a b = true -> tuple_ltb b c = true -> tuple_ltb a c = true.
Proof.
  revert b c. induction a as [|x a IH]; intros [|y b] [|z c]; simpl; try done.
  destruct (String.eqb_spec x y) as [->|Hxy];
    destruct (String.eqb_spec y z) as [->|Hyz].
  - apply IH.
  - intros _ Hlt. destruct (String.eqb_spec y z); done.
  - intros Hlt _. destruct (String.eqb_spec x z); done.
  - intros Hxy' Hyz'. pose proof (string_ltb_trans _ _ _ Hxy' Hyz') as Hxz.
    destruct (String.eqb_spec x z) as [->|_]; [|done].
    by rewrite string_ltb_irrefl in Hxz.
Qed.

Lemma tuple_ltb_total (a b : list string) :
  a ≠ b -> tuple_ltb a b = true \/ tuple_ltb b a = true.
Proof.
  revert b. induction a as [|x a IH]; intros [|y b] Hne; simpl; auto; try done.
  rewrite (String.eqb_sym y x).
  destruct (String.eqb_spec x y) as [->|Hxy].
  - apply IH. congruence.
  - by apply string_ltb_total.
Qed.

Lemma tuple_ltb_asym (a b : list string) :
  tuple_ltb a b = true -> tuple_ltb b a = false.
Proof.
  intros Hab. destruct (tuple_ltb b a) eqn:Hba; [|done].
  pose proof (tuple_ltb_trans _ _ _ Hab Hba) as Haa.
  by rewrite tuple_ltb_irrefl in Haa.
Qed.

Global Instance location_le_total : Total Importer.location_le.
Proof.
  intros x y. unfold Importer.location_le.
  destruct (tuple_ltb (Importer.location_key y) (Importer.location_key x)) eqn:H;
    [right|by left].
  by apply tuple_ltb_asym.
Qed.

Global Instance location_le_trans : Transitive Importer.location_le.
Proof.
  intros x y z. unfold Importer.location_le. intros Hxy Hyz.
  destruct (tuple_ltb (Importer.location_key z) (Importer.location_key x)) eqn:Hzx;
    [|done].
  destruct (decide (Importer.location_key y = Importer.location_key x)) as [Heq|Hne].
  - rewrite Heq in Hyz. congruence.
  - destruct (tuple_ltb_total _ _ Hne) as [H|H]; [congruence|].
    pose proof (tuple_ltb_trans _ _ _ Hzx H). congruence.
Qed.

Context (cfg : Config).

(** X18: the value list the synchronizer logs as provided by ServiceNow has
    no repetitions, is ordered by the tuples of its slash-separated
    components (no entry's tuple is greater than that of a later entry), and
    is logged together with its length. *)
Theorem provided_values_sorted_by_components (env : remote) (n : Z)
    (l : list string) :
  EvLog INFO "ServiceNow provided %d allowed values: %s" [AInt n; AStrs l]
  ∈ fst (Importer.main cfg env []) ->
  StronglySorted
    (fun x y => tuple_ltb (split "/" y) (split "/" x) = false) l
  /\ NoDup l
  /\ n = Z.of_nat (length l).
Proof.
  intros Hin.
  set (Q := fun e : event =>
         forall n l,
           e = EvLog INFO "ServiceNow provided %d allowed values: %s"
                     [AInt n; AStrs l] ->
           StronglySorted Importer.location_le l /\ NoDup l
           /\ n = Z.of_nat (length l)).
  assert (emits_only Q (Importer.main cfg)) as Hmain.
  { unfold Importer.main, Importer.get_snow_locations,
      Importer.get_infoblox_ea_definition, Importer.update_infoblox_ea_values.
    cbn [py_eq].
    emits_script; intros n' l' Heq; try discriminate Heq.
    injection Heq as <- <-. split_and!; [|  |done].
    - apply StronglySorted_merge_sort; apply _.
    - rewrite merge_sort_Permutation. apply NoDup_elements. }
  specialize (Hmain env [] (Forall_nil_2 _)).
  rewrite Forall_forall in Hmain. by apply (Hmain _ Hin).
Qed.

End LocationOrder.

(** ** The flush script as a whole *)

Section FlushFlow.

Context (cfg : Config).





(** X24: the flush update returns normally exactly when its PUT is answered
    with status 200 or 201; otherwise, or when the call raises, it exits
    with status 1 after logging an error record. *)
Theorem flush_update_succeeds_iff_200_or_201
    (proxies : option (list (string * string))) (ea_ref : json)
    (env : remote) (tr : list event) :
  let run := Flush.update_infoblox_ea_values cfg proxies ea_ref env tr in
  let res := env (requests_of tr) (Flush.ea_put_request cfg proxies ea_ref) in
  (snd run = Returned tt
   <-> exists r, res = Responded r
                 /\ (status_code r = 200%Z \/ status_code r = 201%Z))
  /\ (snd run = Returned tt
      \/ (snd run = SystemExit 1%Z
          /\ exists fmt args, last (fst run) = Some (EvLog ERROR fmt args))).
Proof.
  intros run res. subst run res.
  unfold Flush.update_infoblox_ea_values, bind, log, http, sys_exit. simpl.
  rewrite requests_of_log.
  destruct (env _ _) as [msg|r]; simpl.
  - rewrite last_snoc. split; [|right; eauto]. split; [done|].
    by intros (r & ? & _).
  - destruct (Z.eqb_spec (status_code r) 200) as [H200|H200];
      [|destruct (Z.eqb_spec (status_code r) 201) as [H201|H201]]; simpl.
    + split; [|by left]. split; [eauto|done].
    + split; [|by left]. split; [eauto|done].
    + rewrite last_snoc. split; [|right; eauto]. split; [done|].
      intros (r' & [= <-] & [?|?]); done.
Qed.

End FlushFlow.

(** ** The endpoint of the flush script *)

Section Endpoint.

Lemma str_app_cons (c : ascii) (a b : string) :
  String c a +:+ b = String c (a +:+ b).
Proof. reflexivity. Qed.

Lemma str_app_nil_r (s : string) : s +:+ "" = s.
Proof. induction s as [|c s IH]; [done|]. by rewrite str_app_cons, IH. Qed.

Lemma str_app_assoc (a b c : string) : (a +:+ b) +:+ c = a +:+ (b +:+ c).
Proof. induction a as [|x a IH]; [done|]. by rewrite !str_app_cons, IH. Qed.

Lemma str_rev_app_spec (a acc : string) :
  String.rev_app a acc = String.rev a +:+ acc.
Proof.
  revert acc. induction a as [|c a IH]; intros acc; [done|].
  unfold String.rev. simpl. rewrite (IH (String c acc)), (IH (String c "")).
  by rewrite str_app_assoc.
Qed.

Lemma str_rev_cons (c : ascii) (a : string) :
  String.rev (String c a) = String.rev a +:+ String c "".
Proof. unfold String.rev at 1. simpl. apply str_rev_app_spec. Qed.

Lemma str_rev_app (a b : string) :
  String.rev (a +:+ b) = String.rev b +:+ String.rev a.
Proof.
  induction a as [|c a IH].
  - by rewrite str_app_nil_r.
  - by rewrite str_app_cons, !str_rev_cons, IH, str_app_assoc.
Qed.

Lemma str_rev_involutive (s : string) : String.rev (String.rev s) = s.
Proof.
  induction s as [|c s IH]; [done|].
  by rewrite str_rev_cons, str_rev_app, IH.
Qed.

Lemma repeat_char_snoc (c : ascii) (n : nat) :
  repeat_char c n +:+ String c "" = String c (repeat_char c n).
Proof. induction n as [|n IH]; [done|]. simpl. by rewrite str_app_cons, IH. Qed.

Lemma str_rev_repeat (c : ascii) (n : nat) :
  String.rev (repeat_char c n) = repeat_char c n.
Proof.
  induction n as [|n IH]; [done|].
  simpl. by rewrite str_rev_cons, IH, repeat_char_snoc.
Qed.

Lemma lstrip_char_spec (c : ascii) (t : string) :
  (exists n, t = repeat_char c n +:+ lstrip_char c t)
  /\ forall rest, lstrip_char c t ≠ String c rest.
Proof.
  induction t as [|x t [[n IHn] IH]]; simpl.
  - split; [by exists 0|done].
  - destruct (Ascii.eqb_spec x c) as [->|Hne].
    + split; [|done]. exists (S n). simpl. by rewrite str_app_cons, <- IHn.
    + split; [by exists 0|]. intros rest [= ? _]. done.
Qed.

Context (cfg : Config).

(** X20: the endpoint the flush script works with is the configured one
    with every trailing slash removed, and nothing else changed: the
    configured endpoint is that endpoint followed by slashes only, and the
    endpoint never ends in a slash. *)
Theorem flush_endpoint_has_no_trailing_slash :
  (exists n,
     INFOBLOX_API_ENDPOINT cfg
     = Flush.INFOBLOX_ENDPOINT cfg +:+ repeat_char "/" n)
  /\ forall s, Flush.INFOBLOX_ENDPOINT cfg ≠ s +:+ "/".
Proof.
  unfold Flush.INFOBLOX_ENDPOINT, rstrip_char.
  destruct (lstrip_char_spec "/" (String.rev (INFOBLOX_API_ENDPOINT cfg)))
    as [[n Hn] Hhead].
  split.
  - exists n. rewrite <- (str_rev_repeat "/" n), <- str_rev_app, <- Hn.
    by rewrite str_rev_involutive.
  - intros s Heq. apply (f_equal String.rev) in Heq.
    rewrite str_rev_involutive, str_rev_app in Heq.
    by apply (Hhead (String.rev s)).
Qed.

End Endpoint.

(** ** Validation of the configuration *)

Section Validation.

Context (int_accepts : string -> bool) (config : list (string * json)).

Lemma missing_keys_nil (required : list string) :
  missing_keys required config = []
  <-> forall key, key ∈ required -> py_truthy (config_get config key) = true.
Proof.
  unfold missing_keys. induction required as [|k required IH].
  - split; [|done]. by intros _ key ?%not_elem_of_nil.
  - rewrite filter_cons.
    destruct (decide (py_truthy (config_get config k) = false)) as [Hf|Ht].
    + split; [done|]. intros Hall. rewrite (Hall k) in Hf; [done|left].
    + rewrite IH. apply not_false_iff_true in Ht. split.
      * intros Hall key [->|?]%elem_of_cons; auto.
      * intros Hall key ?. apply Hall. by right.
Qed.

(** X21: [validate_config] returns normally exactly when each of the seven
    required keys has a truthy value and [int] accepts the row limit; in
    every other case it exits with status 1.  It issues no request either
    way. *)
Theorem validate_config_accepts_iff (env : remote) (tr : list event) :
  let run := Importer.validate_config int_accepts config env tr in
  (snd run = Returned tt
   <-> (forall key, key ∈ Importer.required_keys ->
                    py_truthy (config_get config key) = true)
       /\ py_int_ok int_accepts (config_get config "SERVICE_NOW_API_LIMIT") = true)
  /\ (snd run = Returned tt \/ snd run = SystemExit 1%Z)
  /\ requests_of (fst run) = requests_of tr.
Proof.
  intros run. subst run. rewrite <- missing_keys_nil.
  unfold Importer.validate_config, bind, log, sys_exit, ret.
  destruct (missing_keys Importer.required_keys config) as [|k missing]; simpl.
  - destruct (py_int_ok _ _); simpl.
    + split_and!; [|by left|done]. done.
    + rewrite requests_of_log. split_and!; [|by right|done].
      split; [done|]. by intros [_ ?].
  - rewrite requests_of_log. split_and!; [|by right|done].
    split; [done|]. by intros [? _].
Qed.

(** X22: a required key whose value is falsy is reported as missing, and
    the missing keys are reported before the row limit is converted: a row
    limit of [0], [False] or the empty string ends the run with the
    missing-keys record, never with the must-be-an-integer one. *)
Theorem falsy_limit_is_reported_missing (env : remote) (tr : list event) :
  py_truthy (config_get config "SERVICE_NOW_API_LIMIT") = false ->
  exists missing,
    Importer.validate_config int_accepts config env tr
    = (tr ++ [EvLog ERROR "Missing required configuration keys: %s" [AStrs missing]],
       SystemExit 1%Z)
    /\ "SERVICE_NOW_API_LIMIT" ∈ missing
    /\ forall key, key ∈ missing
         <-> key ∈ Importer.required_keys
             /\ py_truthy (config_get config key) = false.
Proof.
  intros Hfalsy. exists (missing_keys Importer.required_keys config).
  assert ("SERVICE_NOW_API_LIMIT" ∈ missing_keys Importer.required_keys config)
    as Hin.
  { apply list_elem_of_filter. split; [done|].
    unfold Importer.required_keys. set_solver. }
  split_and!; [|done|].
  - unfold Importer.validate_config, bind, log, sys_exit, ret.
    by destruct (missing_keys Importer.required_keys config);
      [apply not_elem_of_nil in Hin|].
  - intros key. unfold missing_keys. rewrite list_elem_of_filter. tauto.
Qed.

(** X23: the flush script's check returns normally exactly when the three
    Infoblox settings are truthy; otherwise it prints the missing keys on
    the console, without any log record, and exits with status 1. *)
Theorem flush_check_required_accepts_iff (env : remote) (tr : list event) :
  let run := Flush.check_required config env tr in
  (snd run = Returned tt
   <-> forall key, key ∈ Flush.required ->
                   py_truthy (config_get config key) = true)
  /\ (run = (tr, Returned tt)
      \/ run = (tr ++ [EvPrint "[red]Missing required configuration keys: {missing}[/red]"
                              [AStrs (missing_keys Flush.required config)]],
                SystemExit 1%Z)).
Proof.
  intros run. subst run. rewrite <- missing_keys_nil.
  unfold Flush.check_required, bind, rprint, sys_exit, ret.
  destruct (missing_keys Flush.required config) as [|k missing]; simpl.
  - split; [done|by left].
  - split; [done|by right].
Qed.

End Validation.

(** ** Instances of the conditional theorems on the remaining behaviour *)

Lemma readers_rejected_witness :
  snd (Importer.get_infoblox_ea_definition (sample_config None) "Location"
         (always server_error) []) = SystemExit 1%Z
  /\ snd (Flush.get_infoblox_ea_definition (sample_config None) None "Location"
           (always server_error) []) = SystemExit 1%Z.
Proof.
  destruct (readers_exit_on_rejected_answer (sample_config None) None "Location"
              (always server_error) [])
    as [(fmt & args & ->) (fmt' & args' & ->)].
  - left. discriminate.
  - left. discriminate.
  - split; reflexivity.
Defined.

Lemma reader_error_document_witness :
  exists e,
    Importer.get_infoblox_ea_definition (sample_config None) "Location"
      (always (json_response (JObj [("Error", JStr "AdmConProtoError")]))) []
    = ([] ++ [EvLog INFO "Fetching Infoblox EA definition for '%s': %s"
                    [AStr "Location";
                     AStr (Importer.ea_url (sample_config None) "Location")];
              EvRequest (Importer.ea_get_request (sample_config None) "Location")],
       Uncaught e).
Proof.
  apply (importer_reader_dies_on_unexpected_shape (sample_config None) "Location"
           (always (json_response (JObj [("Error", JStr "AdmConProtoError")]))) []
           (json_response (JObj [("Error", JStr "AdmConProtoError")]))
           (JObj [("Error", JStr "AdmConProtoError")]));
    [reflexivity..|exact I].
Defined.

Lemma fetcher_rows_witness :
  let rows := [JObj [("name", JStr " US/NYC/HQ ")]; JObj [("name", JStr "")];
               JObj []; JObj [("name", JNull)]] in
  exists locations,
    snd (Importer.get_snow_locations (sample_config None)
           (always (json_response (JObj [("result", JArr rows)]))) [])
    = Returned locations
    /\ last (fst (Importer.get_snow_locations (sample_config None)
                    (always (json_response (JObj [("result", JArr rows)]))) []))
       = Some (EvLog INFO "Fetched %d locations from ServiceNow."
                     [AInt (Z.of_nat (size locations))])
    /\ forall s, s ∈ locations
         <-> exists members raw,
               JObj members ∈ rows
               /\ dict_lookup "name" members = Some (JStr raw)
               /\ raw ≠ EmptyString
               /\ s = strip raw.
Proof.
  intros rows.
  apply (fetcher_returns_stripped_names (sample_config None)
           (always (json_response (JObj [("result", JArr rows)]))) []
           (json_response (JObj [("result", JArr rows)]))
           [("result", JArr rows)] rows); try reflexivity.
  repeat (apply List.Forall_cons;
          [simpl; first [exact I | (left; reflexivity) | (right; eexists; reflexivity)
                        | (eexists; reflexivity)]|]);
    apply List.Forall_nil.
Defined.

Lemma blank_name_witness :
  exists locations,
    snd (Importer.get_snow_locations (sample_config None)
           (always (json_response
                      (JObj [("result", JArr [JObj [("name", JStr "  ")]])]))) [])
    = Returned locations
    /\ EmptyString ∈ locations.
Proof.
  apply (blank_name_yields_empty_location (sample_config None)
           (always (json_response
                      (JObj [("result", JArr [JObj [("name", JStr "  ")]])]))) []
           (json_response (JObj [("result", JArr [JObj [("name", JStr "  ")]])]))
           [("result", JArr [JObj [("name", JStr "  ")]])]
           [JObj [("name", JStr "  ")]] [("name", JStr "  ")] "  ");
    try reflexivity.
  - repeat (apply List.Forall_cons;
            [simpl; first [exact I | (left; reflexivity) | (right; eexists; reflexivity)]|]);
      apply List.Forall_nil.
  - left.
  - discriminate.
Defined.

Lemma main_normal_run_witness :
  exists put values,
    requests_of (fst (Importer.main (sample_config None)
                        (steady_remote ["US/NYC/HQ"; "US/LA/West"] []) []))
    = [Importer.snow_request (sample_config None) None;
       Importer.ea_get_request (sample_config None) "Location";
       put;
       Importer.ea_get_request (sample_config None) "Location"]
    /\ method put = PUT
    /\ url put = UrlRef (INFOBLOX_API_ENDPOINT (sample_config None))
                       (JStr "extensibleattributedef/b25l:Location")
    /\ json_body put
       = Some (JObj [("list_values",
                      JArr (map (fun v => JObj [("value", JStr v)]) values))])
    /\ StronglySorted String.le values.
Proof.
  destruct (main_normal_run (sample_config None)
              (steady_remote ["US/NYC/HQ"; "US/LA/West"] []))
    as (r0 & data & locations & r1 & members & others & put & values
        & _ & _ & _ & _ & Hr1 & _ & Hb1 & Hreq & Hmethod & Hurl & Hbody
        & Hsorted & _).
  - vm_compute. reflexivity.
  - exists put, values. injection Hr1 as <-. injection Hb1 as <- _.
    split_and!; [exact Hreq|exact Hmethod|exact Hurl|exact Hbody|exact Hsorted].
Defined.

Lemma empty_itsm_answer_witness :
  exists put,
    requests_of (fst (Importer.main (sample_config None)
                        (steady_remote [] ["US/NYC/HQ"]) []))
    = [Importer.snow_request (sample_config None) None;
       Importer.ea_get_request (sample_config None) "Location";
       put;
       Importer.ea_get_request (sample_config None) "Location"]
    /\ method put = PUT
    /\ json_body put = Some (JObj [("list_values", JArr [])]).
Proof.
  apply (empty_itsm_answer_submits_empty_list (sample_config None)
           (steady_remote [] ["US/NYC/HQ"])
           (json_response (location_rows [])) [("result", JArr [])]);
    reflexivity.
Defined.

Lemma allowed_values_witness :
  let entries := [JObj [("value", JStr "US/NYC/HQ")]; JObj [("comment", JStr "x")];
                  JObj [("value", JBool true)]] in
  exists current,
    Importer.allowed_values (JObj [("_ref", JStr "r"); ("list_values", JArr entries)])
    = Val current
    /\ forall k, k ∈ current
         <-> exists entry v,
               JObj entry ∈ entries
               /\ dict_lookup "value" entry = Some v
               /\ py_hashable v = Val k.
Proof.
  intros entries.
  apply (allowed_values_of_definition
           [("_ref", JStr "r"); ("list_values", JArr entries)] entries);
    [reflexivity|].
  repeat (apply List.Forall_cons;
          [simpl; first [exact I | (left; reflexivity) | (right; eexists; reflexivity)
                        | (eexists; reflexivity)]|]);
    apply List.Forall_nil.
Defined.

Lemma allowed_values_unhashable_witness :
  exists e,
    Importer.allowed_values
      (JObj [("list_values",
              JArr [JObj [("value", JStr "a")]; JObj [("value", JArr [])]])])
    = Exn e.
Proof.
  apply (allowed_values_raises_on_unhashable
           [("list_values",
             JArr [JObj [("value", JStr "a")]; JObj [("value", JArr [])]])]
           [JObj [("value", JStr "a")]; JObj [("value", JArr [])]]
           [("value", JArr [])] (JArr []) TypeError); try reflexivity.
  right. left.
Defined.

Lemma provided_values_witness :
  StronglySorted (fun x y => tuple_ltb (split "/" y) (split "/" x) = false)
                 ["US/LA/West"; "US/NYC/HQ"]
  /\ NoDup ["US/LA/West"; "US/NYC/HQ"]
  /\ 2%Z = Z.of_nat (length ["US/LA/West"; "US/NYC/HQ"]).
Proof.
  apply (provided_values_sorted_by_components (sample_config None)
           (steady_remote ["US/NYC/HQ"; "US/LA/West"] []) 2
           ["US/LA/West"; "US/NYC/HQ"]).
  apply list_elem_of_lookup. exists 9. vm_compute. reflexivity.
Defined.

Lemma zero_limit_witness :
  exists missing,
    Importer.validate_config (fun _ => true)
      [("INFOBLOX_API_ENDPOINT", JStr "https://ipam.example/wapi/v2.12");
       ("INFOBLOX_API_USERNAME", JStr "u"); ("INFOBLOX_API_PASSWORD", JStr "p");
       ("SERVICENOW_API_USERNAME", JStr "u"); ("SERVICENOW_API_TOKEN", JStr "t");
       ("SERVICENOW_API_ENDPOINT", JStr "itsm.example");
       ("SERVICE_NOW_API_LIMIT", JNum 0)]
      (always server_error) []
    = ([] ++ [EvLog ERROR "Missing required configuration keys: %s" [AStrs missing]],
       SystemExit 1%Z)
    /\ "SERVICE_NOW_API_LIMIT" ∈ missing
    /\ forall key, key ∈ missing
         <-> key ∈ Importer.required_keys
             /\ py_truthy (config_get
                  [("INFOBLOX_API_ENDPOINT", JStr "https://ipam.example/wapi/v2.12");
                   ("INFOBLOX_API_USERNAME", JStr "u"); ("INFOBLOX_API_PASSWORD", JStr "p");
                   ("SERVICENOW_API_USERNAME", JStr "u"); ("SERVICENOW_API_TOKEN", JStr "t");
                   ("SERVICENOW_API_ENDPOINT", JStr "itsm.example");
                   ("SERVICE_NOW_API_LIMIT", JNum 0)] key) = false.
Proof.
  apply (falsy_limit_is_reported_missing (fun _ => true)
           [("INFOBLOX_API_ENDPOINT", JStr "https://ipam.example/wapi/v2.12");
            ("INFOBLOX_API_USERNAME", JStr "u"); ("INFOBLOX_API_PASSWORD", JStr "p");
            ("SERVICENOW_API_USERNAME", JStr "u"); ("SERVICENOW_API_TOKEN", JStr "t");
            ("SERVICENOW_API_ENDPOINT", JStr "itsm.example");
            ("SERVICE_NOW_API_LIMIT", JNum 0)]
           (always server_error) []).
  reflexivity.
Defined.
